(** * SkillSync front end: the analysis workflow of [App.jsx] and [UploadForm.jsx]

    A shallow embedding of the client-side workflow: the file gate of the
    drop zones ([Dropzone.handleFile]), the submit guard of the upload form
    ([canSubmit], [handleSubmit]), the view state machine of [App]
    ([handleRoleSelect], [handleAnalyze], [handleReset]) together with the
    mapping of HTTP responses to toasts, and the score helpers of the
    results dashboard ([scoreColor], the frame callback [step] of
    [CircularScore]).

    Conventions.
    - React state is a record; a state setter is a state transformer.  An
      event handler runs to completion before the next event is taken.
    - The [async] function [handleAnalyze] is cut at its [await fetch]: the
      first half runs on the click, the second half when the request
      settles.
    - JavaScript exceptions inside [handleAnalyze] are modelled with a state
      and exception monad whose state survives a [throw].
    - Rendering is immediate: a component is there exactly when its
      condition in the JSX holds; the exit animations of [AnimatePresence]
      are not modelled.
    - Requests settle in the order they were sent; how each one settles is
      part of the event.
    - JavaScript numbers are modelled by exact rationals. *)

From Stdlib Require Import String Ascii List Bool Arith NArith ZArith.
From Stdlib Require Import QArith Qminmax Qpower Lia Lqa DecimalString.
From Stdlib Require Import Qabs Zdivisibility.
Import ListNotations.

Local Open Scope string_scope.

(** ** JavaScript values produced by [response.json()] *)

Module Js.

#[local] Set Warnings "-register-all".

Inductive value : Type :=
| Null
| Bool (b : bool)
| Num (q : Q)
| Str (s : string)
| Arr (items : list value)
| Obj (fields : list (string * value)).

(** [ToBoolean]: [null], [false], [0] and the empty string are falsy,
    every array and object is truthy. *)
Definition truthy (v : value) : bool :=
  match v with
  | Null => false
  | Bool b => b
  | Num q => negb (Qeq_bool q 0)
  | Str s => negb (s =? "")
  | Arr _ => true
  | Obj _ => true
  end.

(** Own property lookup on an object. *)
Fixpoint lookup (k : string) (fields : list (string * value)) : option value :=
  match fields with
  | [] => None
  | (k', v) :: rest => if k =? k' then Some v else lookup k rest
  end.

(** [a || b] where [a] may be [undefined] (here [None]). *)
Definition or (a : option value) (b : value) : value :=
  match a with
  | Some v => if truthy v then v else b
  | None => b
  end.

(** [hay.includes(needle)] *)
Definition includes (needle hay : string) : bool :=
  match index 0 needle hay with
  | Some _ => true
  | None => false
  end.

End Js.

(** ** UploadForm.jsx *)

Module UploadForm.

(** The fields of a DOM [File] that the code reads. *)
Record File : Type := mkFile
  { file_name : string;
    file_type : string;
    file_size : N }.

(** Component state: [resumeFile], [jdFile], [sizeError], and the number
    of [setTimeout] callbacks of [showSizeToast] that have not fired. *)
Record FormState : Type := mkForm
  { resumeFile : option File;
    jdFile : option File;
    sizeError : option string;
    sizeTimers : nat }.

(** [useState(null)] three times. *)
Definition initial : FormState :=
  {| resumeFile := None; jdFile := None; sizeError := None; sizeTimers := 0 |}.

Definition setResumeFile (f : option File) (st : FormState) : FormState :=
  {| resumeFile := f; jdFile := jdFile st;
     sizeError := sizeError st; sizeTimers := sizeTimers st |}.

Definition setJdFile (f : option File) (st : FormState) : FormState :=
  {| resumeFile := resumeFile st; jdFile := f;
     sizeError := sizeError st; sizeTimers := sizeTimers st |}.

Definition setSizeError (m : option string) (st : FormState) : FormState :=
  {| resumeFile := resumeFile st; jdFile := jdFile st;
     sizeError := m; sizeTimers := sizeTimers st |}.

(** The operands of [resumeFile && jdFile && !isLoading]. *)
Inductive operand : Type :=
| ONull
| OFile (f : File)
| OBool (b : bool).

Definition ofFile (f : option File) : operand :=
  match f with
  | Some f => OFile f
  | None => ONull
  end.

Definition truthy (v : operand) : bool :=
  match v with
  | ONull => false
  | OFile _ => true
  | OBool b => b
  end.

(** [a && b]: the left operand when it is falsy, the right one otherwise. *)
Definition js_and (a b : operand) : operand :=
  if truthy a then b else a.

(** [const canSubmit = resumeFile && jdFile && !isLoading;] *)
Definition canSubmit (st : FormState) (isLoading : bool) : operand :=
  js_and (js_and (ofFile (resumeFile st)) (ofFile (jdFile st)))
         (OBool (negb isLoading)).

(** [showSizeToast]: set the banner and arm a five second timer. *)
Definition showSizeToast (message : string) (st : FormState) : FormState :=
  let st := setSizeError (Some message) st in
  {| resumeFile := resumeFile st; jdFile := jdFile st;
     sizeError := sizeError st; sizeTimers := S (sizeTimers st) |}.

(** The timer callback [() => setSizeError(null)]. *)
Definition sizeTimerFired (st : FormState) : FormState :=
  match sizeTimers st with
  | O => st
  | S n =>
      {| resumeFile := resumeFile st; jdFile := jdFile st;
         sizeError := None; sizeTimers := n |}
  end.

(** *** Dropzone *)

Definition MAX_FILE_SIZE : N := 1048576.

Definition PDF : string := "application/pdf".

Definition tooLargeMessage : string :=
  "File is too large. Please upload a standard text-based PDF under 1MB.".

(** [handleFile], with the two callbacks the drop zone was given.  The
    argument is [files[0]], which is [undefined] when no file came. *)
Definition handleFile
    (onFileSelect : File -> FormState -> FormState)
    (onFileSizeError : string -> FormState -> FormState)
    (f : option File) (st : FormState) : FormState :=
  match f with
  | None => st
  | Some f =>
      if negb (file_type f =? PDF) then st
      else if (MAX_FILE_SIZE <? file_size f)%N then
        onFileSizeError tooLargeMessage st
      else onFileSelect f st
  end.

(** The two drop zones rendered by the form. *)
Inductive Slot : Type := ResumeSlot | JdSlot.

Definition slot (sl : Slot) (st : FormState) : option File :=
  match sl with
  | ResumeSlot => resumeFile st
  | JdSlot => jdFile st
  end.

Definition other (sl : Slot) : Slot :=
  match sl with
  | ResumeSlot => JdSlot
  | JdSlot => ResumeSlot
  end.

Definition onFileSelect (sl : Slot) (f : File) : FormState -> FormState :=
  match sl with
  | ResumeSlot => setResumeFile (Some f)
  | JdSlot => setJdFile (Some f)
  end.

(** [handleFile] of the drop zone of slot [sl]: [onFileSelect] is the
    slot's setter, [onFileSizeError] is [showSizeToast] for both. *)
Definition dropzoneHandleFile (sl : Slot) : option File -> FormState -> FormState :=
  handleFile (onFileSelect sl) showSizeToast.

(** [onDrop] and [onInputChange]: nothing happens on a disabled zone
    ([if (disabled) return], and the [input] itself is disabled). *)
Definition onFileInput (sl : Slot) (disabled : bool)
    (f : option File) (st : FormState) : FormState :=
  if disabled then st else dropzoneHandleFile sl f st.

End UploadForm.

(** ** App.jsx *)

Module App.

Import UploadForm.

(** ["recruiter" | "applier"], the two arguments the two [RoleButton]s
    of [Hero] pass to [onRoleSelect]. *)
Inductive Role : Type := recruiter | applier.

(** ["idle" | "upload" | "loading" | "results"] *)
Module View.
Inductive t : Type := idle | upload | loading | results.

Definition eqb (a b : t) : bool :=
  match a, b with
  | idle, idle | upload, upload | loading, loading | results, results => true
  | _, _ => false
  end.
End View.

(** [{ message, type }] *)
Record Toast : Type := mkToast
  { toast_message : Js.value;
    toast_type : string }.

(** The [FormData] of one request. *)
Record FormData : Type := mkFormData
  { fd_role : option Role;
    fd_resume : option File;
    fd_job_description : option File }.

(** The state of [App] ([view], [role], [results], [toast]), the state of
    the [UploadForm] instance when one is mounted, and the requests that
    have been sent and have not settled. *)
Record State : Type := mkState
  { view : View.t;
    role : option Role;
    results : Js.value;
    toast : option Toast;
    form : option FormState;
    inflight : list FormData }.

(** [useState("idle")], [useState(null)] three times; nothing mounted,
    nothing sent. *)
Definition init : State :=
  {| view := View.idle; role := None; results := Js.Null; toast := None;
     form := None; inflight := [] |}.

(** *** Exceptions and the monad of handler bodies *)

Inductive Exn : Type :=
| FetchFailed       (* [fetch] rejected: no response at all *)
| JsonSyntaxError   (* [response.json()] rejected *)
| TypeError.        (* property read on [null] *)

Inductive completion (A : Type) : Type :=
| Normal (a : A)
| Throw (e : Exn).
Arguments Normal {A} a.
Arguments Throw {A} e.

Definition M (A : Type) : Type := State -> completion A * State.

Definition ret {A} (a : A) : M A := fun s => (Normal a, s).

Definition throw {A} (e : Exn) : M A := fun s => (Throw e, s).

Definition bind {A B} (m : M A) (k : A -> M B) : M B :=
  fun s =>
    match m s with
    | (Normal a, s') => k a s'
    | (Throw e, s') => (Throw e, s')
    end.

(** [try { m } catch (err) { h err }]: the handler starts from the state
    the body had reached. *)
Definition try_catch {A} (m : M A) (h : Exn -> M A) : M A :=
  fun s =>
    match m s with
    | (Normal a, s') => (Normal a, s')
    | (Throw e, s') => h e s'
    end.

Definition modify (f : State -> State) : M unit := fun s => (Normal tt, f s).

Definition exec {A} (m : M A) (s : State) : State := snd (m s).

Declare Scope handler_scope.
Delimit Scope handler_scope with handler.
Notation "x <- m ;; k" := (bind m (fun x => k))
  (at level 61, m at next level, right associativity) : handler_scope.
Notation "m ;; k" := (bind m (fun _ => k))
  (at level 61, right associativity) : handler_scope.
Local Open Scope handler_scope.

(** *** State setters *)

Definition setView (v : View.t) : M unit :=
  modify (fun s =>
    {| view := v; role := role s; results := results s; toast := toast s;
       form := form s; inflight := inflight s |}).

Definition setRole (r : option Role) : M unit :=
  modify (fun s =>
    {| view := view s; role := r; results := results s; toast := toast s;
       form := form s; inflight := inflight s |}).

Definition setResults (d : Js.value) : M unit :=
  modify (fun s =>
    {| view := view s; role := role s; results := d; toast := toast s;
       form := form s; inflight := inflight s |}).

Definition setToast (t : option Toast) : M unit :=
  modify (fun s =>
    {| view := view s; role := role s; results := results s; toast := t;
       form := form s; inflight := inflight s |}).

Definition setForm (f : option FormState) (s : State) : State :=
  {| view := view s; role := role s; results := results s; toast := toast s;
     form := f; inflight := inflight s |}.

Definition setInflight (l : list FormData) : M unit :=
  modify (fun s =>
    {| view := view s; role := role s; results := results s; toast := toast s;
       form := form s; inflight := l |}).

(** *** Handlers *)

(** [handleRoleSelect]; the scroll is not state. *)
Definition handleRoleSelect (selectedRole : Role) : M unit :=
  setRole (Some selectedRole) ;;
  setView View.upload.

(** [showToast(message, type = "error")] *)
Definition showToast (message : Js.value) (type : string) : M unit :=
  setToast (Some {| toast_message := message; toast_type := type |}).

(** The body of a response as [response.json()] sees it. *)
Inductive Body : Type :=
| Unparseable
| Parsed (v : Js.value).

Record Response : Type := mkResponse
  { status : N;
    body : Body }.

(** How a [fetch] settles. *)
Inductive FetchOutcome : Type :=
| NetworkError
| Responded (r : Response).

(** [response.ok]: the status is in the range 200-299. *)
Definition ok (r : Response) : bool :=
  ((200 <=? status r) && (status r <=? 299))%N.

(** [await fetch(...)], given how the request settled. *)
Definition awaitFetch (o : FetchOutcome) : M Response :=
  match o with
  | NetworkError => throw FetchFailed
  | Responded r => ret r
  end.

(** [await response.json()] *)
Definition json (r : Response) : M Js.value :=
  match body r with
  | Unparseable => throw JsonSyntaxError
  | Parsed v => ret v
  end.

(** [v.detail]: a [TypeError] on [null], the own property on an object,
    [undefined] (here [None]) on every other value. *)
Definition getDetail (v : Js.value) : M (option Js.value) :=
  match v with
  | Js.Null => throw TypeError
  | Js.Obj fields => ret (Js.lookup "detail" fields)
  | _ => ret None
  end.

(** [`${response.status}`] *)
Definition decimal (n : N) : string := NilZero.string_of_uint (N.to_uint n).

Definition msg415 : string :=
  "Invalid file type. Please upload PDF files only.".

Definition msg422 : string :=
  "Could not read one of the PDFs. Please ensure they contain selectable text.".

Definition msgServer (st : N) : string :=
  "Server error (" ++ decimal st ++ "). Please try again.".

Definition msgUnreachable : string :=
  "Could not reach the server. Make sure the FastAPI backend is running.".

(** The right operand of [errorData.detail || (...)]. *)
Definition statusMessage (st : N) : string :=
  if (st =? 415)%N then msg415
  else if (st =? 422)%N then msg422
  else msgServer st.

(** [handleAnalyze] up to its [await fetch]: [setView("loading")], build
    the form data, send it. *)
Definition handleAnalyze_start (resumeFile jdFile : option File) : M unit :=
  fun s =>
    (setView View.loading ;;
     let formData :=
       {| fd_role := role s; fd_resume := resumeFile;
          fd_job_description := jdFile |} in
     setInflight (inflight s ++ [formData])) s.

(** [handleAnalyze] from the point where [fetch] settles. *)
Definition handleAnalyze_resume (o : FetchOutcome) : M unit :=
  try_catch
    (response <- awaitFetch o ;;
     if negb (ok response) then
       errorData <- try_catch (json response) (fun _ => ret (Js.Obj [])) ;;
       detail <- getDetail errorData ;;
       let message := Js.or detail (Js.Str (statusMessage (status response))) in
       showToast message "error" ;;
       setView View.upload
     else
       data <- json response ;;
       setResults data ;;
       setView View.results)
    (fun err =>
       showToast (Js.Str msgUnreachable) "error" ;;
       setView View.upload).

(** [handleReset]; the scroll is not state. *)
Definition handleReset : M unit :=
  setView View.idle ;;
  setRole None ;;
  setResults Js.Null.

(** *** Rendering *)

(** [isLoading={view === "loading"}] *)
Definition isLoading (s : State) : bool := View.eqb (view s) View.loading.

(** [(view === "upload" || view === "loading") && <UploadForm .../>]: the
    form keeps its state while it stays mounted, starts from [initial]
    when it is mounted, and loses its state when it is removed.  The
    removal is taken at once: the time [AnimatePresence] keeps a leaving
    form on the page is not modelled, nor is a render that throws. *)
Definition render (s : State) : State :=
  match view s with
  | View.upload | View.loading =>
      match form s with
      | Some _ => s
      | None => setForm (Some initial) s
      end
  | View.idle | View.results => setForm None s
  end.

(** The guard of the dashboard in the JSX,
    [view === "results" && results && <ResultsDashboard .../>]; what
    [ResultsDashboard] does with the result once the guard holds is not
    part of it. *)
Definition dashboardShown (s : State) : bool :=
  View.eqb (view s) View.results && Js.truthy (results s).

(** [handleSubmit] of the mounted form: [if (canSubmit) onSubmit(resumeFile, jdFile)]
    with [onSubmit={handleAnalyze}]. *)
Definition handleSubmit : M unit :=
  fun s =>
    match form s with
    | None => (Normal tt, s)
    | Some st =>
        if truthy (canSubmit st (isLoading s))
        then handleAnalyze_start (resumeFile st) (jdFile st) s
        else (Normal tt, s)
    end.

(** *** Events *)

Inductive Event : Type :=
| RoleClick (r : Role)                      (* a [RoleButton] of [Hero] *)
| FileInput (sl : Slot) (f : option File)   (* drop or pick on a drop zone *)
| SubmitClick                               (* "Run AI Analysis" *)
| BackClick                                 (* "Back to Roles" *)
| ResetClick                                (* "Analyze Another Resume" *)
| FetchSettled (o : FetchOutcome)           (* the oldest request settles *)
| ToastClose                                (* dismiss button or the 5 s timer *)
| SizeTimer.                                (* a timer of [showSizeToast] fires *)

(** What the handler wired to an event does; an event whose control is
    absent or disabled does nothing. *)
Definition handle (e : Event) : M unit :=
  fun s =>
    match e with
    | RoleClick r => handleRoleSelect r s
    | FileInput sl f =>
        match form s with
        | Some st => (Normal tt, setForm (Some (onFileInput sl (isLoading s) f st)) s)
        | None => (Normal tt, s)
        end
    | SubmitClick => handleSubmit s
    | BackClick =>
        match form s with
        | Some _ => if isLoading s then (Normal tt, s) else handleReset s
        | None => (Normal tt, s)
        end
    | ResetClick =>
        if dashboardShown s then handleReset s else (Normal tt, s)
    | FetchSettled o =>
        match inflight s with
        | [] => (Normal tt, s)
        | _ :: rest => (setInflight rest ;; handleAnalyze_resume o) s
        end
    | ToastClose => setToast None s
    | SizeTimer =>
        match form s with
        | Some st => (Normal tt, setForm (Some (sizeTimerFired st)) s)
        | None => (Normal tt, s)
        end
    end.

(** One event: run its handler, then render. *)
Definition dispatch (s : State) (e : Event) : State :=
  render (exec (handle e) s).

Definition run (s : State) (events : list Event) : State :=
  fold_left dispatch events s.

(** The file of a slot as the application holds it: none when no form is
    mounted. *)
Definition slotOf (sl : Slot) (s : State) : option File :=
  match form s with
  | Some st => slot sl st
  | None => None
  end.

(** Whether the submit button of the current screen is enabled. *)
Definition canSubmitNow (s : State) : bool :=
  match form s with
  | Some st => truthy (canSubmit st (isLoading s))
  | None => false
  end.


(** The [detail] member of an error body, when the body parses to an
    object that has one. *)
Definition detailField (b : Body) : option Js.value :=
  match b with
  | Parsed (Js.Obj fields) => Js.lookup "detail" fields
  | _ => None
  end.

Definition isNull (v : Js.value) : bool :=
  match v with
  | Js.Null => true
  | _ => false
  end.

(** An event is orderly in a state unless it is a role click while a
    request is in flight, or a response with a 2xx status whose body is the
    JSON value [null]. *)
Definition orderlyEvent (s : State) (e : Event) : bool :=
  match e with
  | RoleClick _ =>
      match inflight s with
      | [] => true
      | _ :: _ => false
      end
  | FetchSettled (Responded r) =>
      match body r with
      | Parsed v => negb (ok r && isNull v)
      | Unparseable => true
      end
  | _ => true
  end.

Fixpoint orderly (s : State) (events : list Event) : bool :=
  match events with
  | [] => true
  | e :: rest => orderlyEvent s e && orderly (dispatch s e) rest
  end.

(** What holds of every state of an orderly run: the state is a rendered
    one; a request is in flight only in the loading view, and then exactly
    one; outside the idle view a role is set; in the results view a result
    is stored. *)
Definition Inv (s : State) : Prop :=
  render s = s /\
  (inflight s = [] \/ (view s = View.loading /\ exists fd, inflight s = [fd])) /\
  (view s <> View.idle -> role s <> None) /\
  (view s = View.results -> results s <> Js.Null).


(** *** Sample data *)

Definition pdf : File :=
  {| file_name := "cv.pdf"; file_type := "application/pdf";
     file_size := 500000 |}.

Definition report : Js.value :=
  Js.Obj [("match_percentage", Js.Num 82);
          ("matched_skills", Js.Arr [Js.Str "Go"; Js.Str "SQL"]);
          ("missing_skills", Js.Arr [Js.Str "Rust"]);
          ("hire_summary", Js.Str "Strong fit")].

(** Pick a role, fill both slots, submit. *)
Definition submitted (r : Role) : list Event :=
  [RoleClick r; FileInput ResumeSlot (Some pdf); FileInput JdSlot (Some pdf);
   SubmitClick].

End App.

(** ** ResultsDashboard.jsx *)

Module ResultsDashboard.

Local Open Scope Q_scope.

Record ScoreColor : Type := mkScoreColor
  { stroke : string;
    text : string;
    label : string }.

(** [scoreColor(pct)] *)
Definition scoreColor (pct : Q) : ScoreColor :=
  if Qle_bool 75 pct then
    {| stroke := "#34d399"; text := "text-emerald-500 dark:text-emerald-400";
       label := "Strong Match" |}
  else if Qle_bool 50 pct then
    {| stroke := "#f59e0b"; text := "text-amber-500 dark:text-amber-400";
       label := "Moderate Match" |}
  else
    {| stroke := "#f87171"; text := "text-red-500 dark:text-red-400";
       label := "Weak Match" |}.

(** The three bands of the specification, and the band a colour record
    stands for: emerald is strong, amber is moderate, red is weak. *)
Inductive Band : Type := Strong | Moderate | Weak.

Definition bandOf (c : ScoreColor) : option Band :=
  if (stroke c =? "#34d399")%string then Some Strong
  else if (stroke c =? "#f59e0b")%string then Some Moderate
  else if (stroke c =? "#f87171")%string then Some Weak
  else None.

(** *** CircularScore *)

(** [const duration = 1100;] *)
Definition duration : Q := 1100.

(** What the effect of [CircularScore] owns: the local [start], the state
    [animated], and whether a frame callback is requested. *)
Record Anim : Type := mkAnim
  { start : option Q;
    animated : Q;
    scheduled : bool }.

(** [useState(0)], [let start = null], [requestAnimationFrame(step)]. *)
Definition mounted : Anim :=
  {| start := None; animated := 0; scheduled := true |}.

Definition Qltb (a b : Q) : bool := negb (Qle_bool b a).

(** [if (!start) start = timestamp;]: [null] and [0] are falsy. *)
Definition startAt (a : Anim) (timestamp : Q) : Q :=
  match start a with
  | None => timestamp
  | Some s => if Qeq_bool s 0 then timestamp else s
  end.

(** [Math.min((timestamp - start) / duration, 1)] *)
Definition progress (a : Anim) (timestamp : Q) : Q :=
  Qmin ((timestamp - startAt a timestamp) / duration) 1.

(** [1 - Math.pow(1 - progress, 3)], in exact arithmetic. *)
Definition eased (p : Q) : Q := 1 - (1 - p) ^ 3.

(** The frame callback [step(timestamp)]. *)
Definition step (score : Q) (a : Anim) (timestamp : Q) : Anim :=
  {| start := Some (startAt a timestamp);
     animated := eased (progress a timestamp) * score;
     scheduled := Qltb (progress a timestamp) 1 |}.

(** The animation over the timestamps of the coming frames: a frame runs
    [step] only while a callback is requested. *)
Fixpoint animate (score : Q) (a : Anim) (frames : list Q) : Anim :=
  match frames with
  | [] => a
  | timestamp :: rest =>
      if scheduled a then animate score (step score a timestamp) rest else a
  end.

(** The samples of the animation: for each frame that ran, its normalized
    time and the value it passed to [setAnimated]. *)
Fixpoint samples (score : Q) (a : Anim) (frames : list Q) : list (Q * Q) :=
  match frames with
  | [] => []
  | timestamp :: rest =>
      if scheduled a then
        (progress a timestamp, animated (step score a timestamp))
          :: samples score (step score a timestamp) rest
      else []
  end.

(** The curve of the specification: [target * (1 - (1 - t)^3)]. *)
Definition value (target t : Q) : Q := target * (1 - (1 - t) ^ 3).

(** A list of rationals that never goes down. *)
Fixpoint ascending (l : list Q) : Prop :=
  match l with
  | [] => True
  | x :: rest =>
      match rest with
      | [] => True
      | y :: _ => x <= y /\ ascending rest
      end
  end.

End ResultsDashboard.

(** ** App.jsx: the theme *)

Module Theme.

(** What the theme code touches outside React: the entry
    ["skillsync-theme"] of [localStorage] ([None] when [getItem] gives
    [null]), the answer of [matchMedia("(prefers-color-scheme: dark)")],
    and whether [<html>] carries the class ["dark"]. *)
Record Browser : Type := mkBrowser
  { saved : option string;
    prefersDark : bool;
    htmlDark : bool }.

(** The initializer of [useState] for [isDark]: a stored non-empty string
    decides, otherwise the preference of the system. *)
Definition initIsDark (b : Browser) : bool :=
  match saved b with
  | Some s => if negb (s =? "") then s =? "dark" else prefersDark b
  | None => prefersDark b
  end.

(** The effect on [isDark]: [classList.toggle("dark", isDark)] and
    [localStorage.setItem("skillsync-theme", isDark ? "dark" : "light")]. *)
Definition syncEffect (isDark : bool) (b : Browser) : Browser :=
  {| saved := Some (if isDark then "dark" else "light");
     prefersDark := prefersDark b;
     htmlDark := isDark |}.

Record State : Type := mkTheme
  { isDark : bool;
    browser : Browser }.

(** First render of [App] in a browser, effect included. *)
Definition mount (b : Browser) : State :=
  {| isDark := initIsDark b; browser := syncEffect (initIsDark b) b |}.

(** [onToggleDark={() => setIsDark((d) => !d)}], effect included. *)
Definition toggle (t : State) : State :=
  {| isDark := negb (isDark t);
     browser := syncEffect (negb (isDark t)) (browser t) |}.

Fixpoint toggles (n : nat) (t : State) : State :=
  match n with
  | O => t
  | S n => toggles n (toggle t)
  end.

(** The browser as the next session finds it: the storage is kept, the
    class on [<html>] is gone, the preference of the system may differ. *)
Definition reopen (systemDark : bool) (b : Browser) : Browser :=
  {| saved := saved b; prefersDark := systemDark; htmlDark := false |}.

End Theme.

(** ** UploadForm.jsx: the role header and the drag state of a drop zone *)

Module UploadFormView.

Import UploadForm App.

Record Meta : Type := mkMeta
  { meta_label : string;
    meta_desc : string;
    meta_badge : string;
    meta_button : string;
    meta_dropzone : string;
    meta_active : string }.

(** [ROLE_META.recruiter] and [ROLE_META.applier] *)
Definition ROLE_META (r : Role) : Meta :=
  match r with
  | recruiter =>
      {| meta_label := "Recruiter Analysis";
         meta_desc := "We'll score the match, surface skill gaps, and generate a hire recommendation.";
         meta_badge := "bg-violet-100 dark:bg-violet-500/15 border-violet-300 dark:border-violet-500/40 text-violet-600 dark:text-violet-300";
         meta_button := "from-violet-600 to-violet-500 shadow-violet-500/30 hover:shadow-violet-500/50";
         meta_dropzone := "border-violet-300/70 dark:border-violet-500/40 hover:border-violet-500 dark:hover:border-violet-400 hover:bg-violet-50 dark:hover:bg-violet-500/5";
         meta_active := "border-violet-500 dark:border-violet-400 bg-violet-50 dark:bg-violet-500/10" |}
  | applier =>
      {| meta_label := "Job Seeker Analysis";
         meta_desc := "We'll show your match score, what skills you're missing, and how to improve.";
         meta_badge := "bg-cyan-100 dark:bg-cyan-500/15 border-cyan-300 dark:border-cyan-500/40 text-cyan-600 dark:text-cyan-300";
         meta_button := "from-cyan-600 to-cyan-500 shadow-cyan-500/30 hover:shadow-cyan-500/50";
         meta_dropzone := "border-cyan-300/70 dark:border-cyan-500/40 hover:border-cyan-500 dark:hover:border-cyan-400 hover:bg-cyan-50 dark:hover:bg-cyan-500/5";
         meta_active := "border-cyan-500 dark:border-cyan-400 bg-cyan-50 dark:bg-cyan-500/10" |}
  end.

(** [const meta = ROLE_META[role];]: [undefined] (here [None]) when [role]
    is [null]. *)
Definition metaOf (role : option Role) : option Meta :=
  match role with
  | Some r => Some (ROLE_META r)
  | None => None
  end.

(** The first read of [meta] while the form renders, [meta.badge], and the
    label shown next to it: a [TypeError] when [meta] is [undefined]. *)
Definition header (role : option Role) : completion (string * string) :=
  match metaOf role with
  | Some m => Normal (meta_badge m, meta_label m)
  | None => Throw TypeError
  end.

(** The header of the form the application shows, if it shows one. *)
Definition headerOf (s : App.State) : option (completion (string * string)) :=
  match form s with
  | Some _ => Some (header (role s))
  | None => None
  end.

(** A file the gate lets through. *)
Definition accepted (f : File) : Prop :=
  file_type f = "application/pdf" /\ (file_size f <= 1048576)%N.

(** *** Dropzone: [isDragging] beside the form state *)

Definition Zone : Type := (bool * FormState)%type.

(** [onDrop]: the highlight goes, then the gate runs unless disabled. *)
Definition onDrop (sl : Slot) (disabled : bool) (f : option File) (z : Zone) : Zone :=
  if disabled then (false, snd z)
  else (false, dropzoneHandleFile sl f (snd z)).

(** [onDragOver]: [if (!disabled) setIsDragging(true)] *)
Definition onDragOver (disabled : bool) (z : Zone) : Zone :=
  if negb disabled then (true, snd z) else z.

(** [onDragLeave] *)
Definition onDragLeave (z : Zone) : Zone := (false, snd z).

(** [onInputChange]: the gate, the highlight is not touched. *)
Definition onInputChange (sl : Slot) (f : option File) (z : Zone) : Zone :=
  (fst z, dropzoneHandleFile sl f (snd z)).

(** [const hasFile = Boolean(file);] *)
Definition hasFile (sl : Slot) (st : FormState) : bool :=
  match slot sl st with
  | Some _ => true
  | None => false
  end.

(** [isDragging || hasFile ? activeClass : accentClass], with the classes
    the form passes for the role. *)
Definition zoneClass (m : Meta) (sl : Slot) (z : Zone) : string :=
  if fst z || hasFile sl (snd z) then meta_active m else meta_dropzone m.

(** The drag events that carry no file. *)
Inductive DragEvent : Type :=
| DragOver (disabled : bool)
| DragLeave.

Definition drag (z : Zone) (e : DragEvent) : Zone :=
  match e with
  | DragOver disabled => onDragOver disabled z
  | DragLeave => onDragLeave z
  end.

End UploadFormView.

(** ** Toast.jsx *)

Module ToastView.

Record Style : Type := mkStyle
  { wrapper : string;
    icon : string;
    title : string }.

Definition STYLES_error : Style :=
  {| wrapper := "bg-red-950/90 border-red-500/40 text-red-200";
     icon := "❌";
     title := "Error" |}.

Definition STYLES_success : Style :=
  {| wrapper := "bg-emerald-950/90 border-emerald-500/40 text-emerald-200";
     icon := "✅";
     title := "Success" |}.

Definition STYLES_info : Style :=
  {| wrapper := "bg-slate-900/90 border-slate-500/40 text-slate-200";
     icon := "ℹ️";
     title := "Info" |}.

(** The members every object literal inherits from [Object.prototype]. *)
Definition inherited : list string :=
  ["constructor"; "__proto__"; "hasOwnProperty"; "isPrototypeOf";
   "propertyIsEnumerable"; "toLocaleString"; "toString"; "valueOf";
   "__defineGetter__"; "__defineSetter__"; "__lookupGetter__";
   "__lookupSetter__"].

Fixpoint mem (k : string) (l : list string) : bool :=
  match l with
  | [] => false
  | k' :: rest => (k =? k') || mem k rest
  end.

(** [STYLES[type] || STYLES.error]: an own key gives its style, an
    inherited member is truthy and is no style (here [None]), any other key
    gives [undefined] and so the error style. *)
Definition styleFor (type : string) : option Style :=
  if type =? "error" then Some STYLES_error
  else if type =? "success" then Some STYLES_success
  else if type =? "info" then Some STYLES_info
  else if mem type inherited then None
  else Some STYLES_error.

End ToastView.

(** ** ResultsDashboard.jsx: the cards and the arc *)

Module Dashboard.

Import App ResultsDashboard.

(** A member taken by [const { ... } = results]: the own property of an
    object, [undefined] (here [None]) on any other value the dashboard can
    be given. *)
Definition member (k : string) (results : Js.value) : option Js.value :=
  match results with
  | Js.Obj fields => Js.lookup k fields
  | _ => None
  end.

Definition truthyMember (v : option Js.value) : bool :=
  match v with
  | Some v => Js.truthy v
  | None => false
  end.

(** [const isRecruiter = role === "recruiter";] *)
Definition isRecruiter (role : option Role) : bool :=
  match role with
  | Some recruiter => true
  | _ => false
  end.

(** [{isRecruiter ? "Candidate Report" : "Your Resume Report"}] *)
Definition heading (role : option Role) : string :=
  if isRecruiter role then "Candidate Report" else "Your Resume Report".

Inductive Card : Type :=
| NoCard
| HireSummaryCard (summary : option Js.value)
| ImprovementsCard (improvements : option Js.value).

(** The role-specific section:
    [isRecruiter && hire_summary ? <HireSummaryCard/> :
     !isRecruiter && basic_improvements ? <ImprovementsCard/> : null]. *)
Definition roleSection (role : option Role) (results : Js.value) : Card :=
  let hire_summary := member "hire_summary" results in
  let basic_improvements := member "basic_improvements" results in
  if isRecruiter role && truthyMember hire_summary then
    HireSummaryCard hire_summary
  else if negb (isRecruiter role) && truthyMember basic_improvements then
    ImprovementsCard basic_improvements
  else NoCard.

(** *** The arc of [CircularScore] *)

Local Open Scope Q_scope.

Definition size : Q := 140.

Definition strokeWidth : Q := 10.

(** [(size - strokeWidth) / 2] *)
Definition radius : Q := (size - strokeWidth) / 2.

(** [2 * Math.PI * radius], for the value [PI] of [Math.PI]. *)
Definition circumference (PI : Q) : Q := 2 * PI * radius.

(** [circumference - (animated / 100) * circumference] *)
Definition offset (PI : Q) (animated : Q) : Q :=
  circumference PI - (animated / 100) * circumference PI.

(** A list of rationals that never goes up. *)
Fixpoint descending (l : list Q) : Prop :=
  match l with
  | [] => True
  | x :: rest =>
      match rest with
      | [] => True
      | y :: _ => y <= x /\ descending rest
      end
  end.

(** The rank of a band: weak below moderate below strong. *)
Definition rank (b : option Band) : nat :=
  match b with
  | Some Strong => 3
  | Some Moderate => 2
  | Some Weak => 1
  | None => 0
  end.

End Dashboard.

(** ** Vocabulary of the workflow properties *)

Module Workflow.

Import UploadForm App.

(** A request settles in success when the status is in 200-299 and the
    body parses. *)
Definition succeeds (o : FetchOutcome) : bool :=
  match o with
  | NetworkError => false
  | Responded r =>
      match body r with
      | Parsed _ => ok r
      | Unparseable => false
      end
  end.

(** The toasts [handleAnalyze] raises: type ["error"], a truthy message. *)
Definition errorToast (t : option Toast) : Prop :=
  match t with
  | Some t => toast_type t = "error" /\ Js.truthy (toast_message t) = true
  | None => True
  end.

(** What holds of every state of every run: the state is a rendered one;
    the idle view holds no role and no result; the loading view has a
    request in flight; a toast, when there is one, is an error toast. *)
Definition Sound (s : State) : Prop :=
  render s = s /\
  (view s = View.idle -> role s = None /\ results s = Js.Null) /\
  (view s = View.loading -> inflight s <> []) /\
  errorToast (toast s).

(** The form data [handleAnalyze] builds in state [s]. *)
Definition formDataOf (s : State) : FormData :=
  {| fd_role := role s;
     fd_resume := slotOf ResumeSlot s;
     fd_job_description := slotOf JdSlot s |}.

End Workflow.

(** ** Handler calls, whatever raises them *)

Module Handlers.

Import UploadForm App.

(** A call of a handler of [App], of the second half of a pending
    [handleAnalyze], of [setToast(null)], or any change of what the upload
    form holds or of whether it is mounted; with no regard to which control
    is there to raise it, and with no rendering in between. *)
Inductive Call : Type :=
| CallRoleSelect (r : Role)
| CallAnalyze (resumeFile jdFile : option File)
| CallSettle (o : FetchOutcome)
| CallReset
| CallToastClose
| CallSetForm (f : option FormState)
| CallSetInflight (l : list FormData).

Definition call (s : State) (c : Call) : State :=
  match c with
  | CallRoleSelect r => exec (handleRoleSelect r) s
  | CallAnalyze resumeFile jdFile => exec (handleAnalyze_start resumeFile jdFile) s
  | CallSettle o => exec (handleAnalyze_resume o) s
  | CallReset => exec handleReset s
  | CallToastClose => exec (setToast None) s
  | CallSetForm f => setForm f s
  | CallSetInflight l => exec (setInflight l) s
  end.

Definition calls (s : State) (l : list Call) : State := fold_left call l s.

End Handlers.

(** ** What React can render as a child *)

Module ReactChild.

Import App.

(** [{message}] in [Toast]: a string or a number is text, [null] and
    booleans render nothing, an array renders its items, a plain object
    makes React throw. *)
Fixpoint valid (v : Js.value) : bool :=
  match v with
  | Js.Obj _ => false
  | Js.Arr items => forallb valid items
  | _ => true
  end.

(** The [detail] of the body of a response, when it is the one the toast
    will carry (present and truthy), is a value React can render. *)
Definition detailRenders (o : FetchOutcome) : bool :=
  match o with
  | NetworkError => true
  | Responded r =>
      match detailField (body r) with
      | Some d => if Js.truthy d then valid d else true
      | None => true
      end
  end.

End ReactChild.

(** ** The frame clock of the specification *)

Module FrameClock.

Import ResultsDashboard.

Local Open Scope Q_scope.

(** The normalized time of a frame at [timestamp] when the clock started at
    [f0]: [min((timestamp - f0) / 1100, 1)], in exact arithmetic. *)
Definition normalized (f0 timestamp : Q) : Q :=
  Qmin ((timestamp - f0) / 1100) 1.

(** The room left for the rounding of the floating-point operations. *)
Definition tol : Q := 1 # 1000000000.

(** The samples [out] follow the frames: each frame is sampled in turn for
    as long as the last sample was below normalized time 1 and never after;
    the sample of a frame is at the normalized time of that frame and on
    the curve of the specification there, both up to [tol]; and a frame
    that comes 1100 ms or more after [f0] gives normalized time 1 and the
    target, exactly. *)
Fixpoint tracks (score f0 : Q) (frames : list Q) (out : list (Q * Q)) : Prop :=
  match frames, out with
  | [], [] => True
  | timestamp :: frames', (t, v) :: out' =>
      Qabs (t - normalized f0 timestamp) <= tol /\
      Qabs (v - value score (normalized f0 timestamp))
        <= tol * (Qabs score + 1) /\
      (f0 + 1100 <= timestamp -> t == 1 /\ v == score) /\
      (if Qle_bool 1 t then out' = [] else tracks score f0 frames' out')
  | _, _ => False
  end.

End FrameClock.

(** * Properties *)

Import UploadForm App.

(** ** Reachable states are rendered states *)

Lemma render_idem : forall s, render (render s) = render s.
Proof.
  intros [v r d t f l]; unfold render; simpl.
  destruct v, f; reflexivity.
Qed.

Lemma run_snoc : forall events e s,
  run s (events ++ [e]) = dispatch (run s events) e.
Proof.
  intros events e s. unfold run. rewrite fold_left_app. reflexivity.
Qed.

Lemma run_rendered : forall events, render (run init events) = run init events.
Proof.
  intros events. induction events as [|e events IH] using rev_ind.
  - reflexivity.
  - rewrite run_snoc. unfold dispatch. apply render_idem.
Qed.

Lemma setForm_same : forall s st, form s = Some st -> setForm (Some st) s = s.
Proof.
  intros [v r d t f l] st H; simpl in H; subst f. reflexivity.
Qed.

(** ** The submit guard *)

Lemma canSubmit_truthy : forall (st : FormState) (isLoading : bool),
  truthy (canSubmit st isLoading) = true <->
  resumeFile st <> None /\ jdFile st <> None /\ isLoading = false.
Proof.
  intros [r j e n] b; unfold canSubmit, js_and; simpl.
  destruct r, j, b; simpl; split; intros H; try discriminate;
    try (repeat split; congruence);
    destruct H as (H1 & H2 & H3); congruence.
Qed.

Lemma isLoading_false : forall s, isLoading s = false <-> view s <> View.loading.
Proof.
  intros s; unfold isLoading; destruct (view s); simpl; split; intros H;
    congruence.
Qed.

(** C4. In every reachable state the submit button is enabled exactly when
    both slots hold a file and the view is not loading; and a submit click
    while it is not enabled leaves the whole state, hence the view and both
    stored files, as it was. *)
Theorem canSubmit_guard : forall events : list Event,
  let s := run init events in
  (canSubmitNow s = true <->
     slotOf ResumeSlot s <> None /\ slotOf JdSlot s <> None /\
     view s <> View.loading) /\
  (canSubmitNow s = false ->
     dispatch s SubmitClick = s /\
     view (dispatch s SubmitClick) = view s /\
     slotOf ResumeSlot (dispatch s SubmitClick) = slotOf ResumeSlot s /\
     slotOf JdSlot (dispatch s SubmitClick) = slotOf JdSlot s).
Proof.
  intros events s. split.
  - unfold canSubmitNow, slotOf. destruct (form s) as [st|] eqn:Hf.
    + rewrite canSubmit_truthy, isLoading_false. reflexivity.
    + split; [discriminate | intros (H & _); congruence].
  - intros Hno.
    assert (Hd : dispatch s SubmitClick = s).
    { unfold dispatch, exec, handle, handleSubmit.
      unfold canSubmitNow in Hno.
      destruct (form s) as [st|]; [rewrite Hno|]; apply run_rendered. }
    rewrite Hd. repeat split.
Qed.

Lemma canSubmit_guard_witness :
  canSubmitNow (run init [RoleClick recruiter]) = false /\
  dispatch (run init [RoleClick recruiter]) SubmitClick
    = run init [RoleClick recruiter].
Proof.
  split.
  - reflexivity.
  - apply (proj2 (canSubmit_guard [RoleClick recruiter])). reflexivity.
Defined.

(** ** The file gate *)

Lemma handleFile_pdf_small : forall sl f st,
  file_type f = PDF -> (file_size f <= MAX_FILE_SIZE)%N ->
  dropzoneHandleFile sl (Some f) st = onFileSelect sl f st.
Proof.
  intros sl f st Ht Hs. unfold dropzoneHandleFile, handleFile.
  rewrite Ht, String.eqb_refl. simpl.
  destruct (N.ltb_spec MAX_FILE_SIZE (file_size f)); [lia | reflexivity].
Qed.

Lemma handleFile_pdf_large : forall sl f st,
  file_type f = PDF -> (MAX_FILE_SIZE < file_size f)%N ->
  dropzoneHandleFile sl (Some f) st = showSizeToast tooLargeMessage st.
Proof.
  intros sl f st Ht Hs. unfold dropzoneHandleFile, handleFile.
  rewrite Ht, String.eqb_refl. simpl.
  destruct (N.ltb_spec MAX_FILE_SIZE (file_size f)); [reflexivity | lia].
Qed.

Lemma handleFile_not_pdf : forall sl f st,
  file_type f <> PDF -> dropzoneHandleFile sl (Some f) st = st.
Proof.
  intros sl f st Ht. unfold dropzoneHandleFile, handleFile.
  apply String.eqb_neq in Ht. rewrite Ht. reflexivity.
Qed.

(** C5. For a file whose type is the PDF type: above 1,048,576 bytes the
    gate leaves both slots as they were and sets the size banner to a text
    that names the 1MB limit; at or below 1,048,576 bytes the file becomes
    the content of its slot, whatever was there, and the other slot is
    untouched. *)
Theorem file_gate_pdf : forall (sl : Slot) (f : File) (st : FormState),
  file_type f = "application/pdf" ->
  let st' := dropzoneHandleFile sl (Some f) st in
  ((1048576 < file_size f)%N ->
     slot sl st' = slot sl st /\
     slot (other sl) st' = slot (other sl) st /\
     sizeError st' =
       Some "File is too large. Please upload a standard text-based PDF under 1MB." /\
     Js.includes "1MB"
       "File is too large. Please upload a standard text-based PDF under 1MB."
       = true) /\
  ((file_size f <= 1048576)%N ->
     slot sl st' = Some f /\
     slot (other sl) st' = slot (other sl) st).
Proof.
  intros sl f st Ht st'. split; intros Hs; subst st'.
  - rewrite handleFile_pdf_large by assumption.
    destruct sl; repeat split; reflexivity.
  - rewrite handleFile_pdf_small by assumption.
    destruct sl; split; reflexivity.
Qed.

Lemma file_gate_pdf_witness :
  let big := {| file_name := "cv.pdf"; file_type := "application/pdf";
                file_size := 2097152 |} in
  let small := {| file_name := "jd.pdf"; file_type := "application/pdf";
                  file_size := 1048576 |} in
  (sizeError (dropzoneHandleFile ResumeSlot (Some big) initial)
     = Some tooLargeMessage /\
   slot ResumeSlot (dropzoneHandleFile ResumeSlot (Some big) initial) = None) /\
  slot JdSlot (dropzoneHandleFile JdSlot (Some small) initial) = Some small.
Proof.
  intros big small. split.
  - destruct (file_gate_pdf ResumeSlot big initial eq_refl) as [Hbig _].
    destruct (Hbig ltac:(reflexivity)) as (H1 & _ & H3 & _).
    split; [exact H3 | exact H1].
  - destruct (file_gate_pdf JdSlot small initial eq_refl) as [_ Hsmall].
    apply Hsmall. simpl. lia.
Defined.

(** C6. A file whose type is not exactly the PDF type changes nothing: the
    form state (both slots and the size banner) is returned as it was,
    and in every reachable state of the application the file event leaves
    the whole state, toast included, as it was. *)
Theorem file_gate_non_pdf_silent : forall (sl : Slot) (f : File),
  file_type f <> "application/pdf" ->
  (forall st : FormState, dropzoneHandleFile sl (Some f) st = st) /\
  (forall events : list Event,
     dispatch (run init events) (FileInput sl (Some f)) = run init events).
Proof.
  intros sl f Ht. split.
  - intros st. apply handleFile_not_pdf. exact Ht.
  - intros events. unfold dispatch, exec, handle.
    destruct (form (run init events)) as [st|] eqn:Hf; simpl.
    + unfold onFileInput.
      destruct (isLoading (run init events));
        [| rewrite handleFile_not_pdf by exact Ht ];
        rewrite setForm_same by exact Hf; apply run_rendered.
    + apply run_rendered.
Qed.

Lemma file_gate_non_pdf_silent_witness :
  let png := {| file_name := "cv.png"; file_type := "image/png";
                file_size := 1000 |} in
  file_type png <> "application/pdf" /\
  dispatch (run init [RoleClick applier]) (FileInput ResumeSlot (Some png))
    = run init [RoleClick applier].
Proof.
  intros png.
  assert (Hne : file_type png <> "application/pdf") by (simpl; discriminate).
  split.
  - exact Hne.
  - exact (proj2 (file_gate_non_pdf_silent ResumeSlot png Hne)
             [RoleClick applier]).
Defined.

(** In the upload view a drop or a pick on a zone is the gate of that zone
    applied to the mounted form; while loading the zones are disabled. *)
Lemma file_input_in_upload : forall s st sl f,
  form s = Some st -> view s = View.upload ->
  dispatch s (FileInput sl f) = setForm (Some (dropzoneHandleFile sl f st)) s.
Proof.
  intros [v r d t fo l] st sl f Hf Hv. cbn in Hf, Hv. subst fo v. reflexivity.
Qed.

Lemma file_input_disabled_while_loading : forall s sl f,
  view s = View.loading -> exec (handle (FileInput sl f)) s = s.
Proof.
  intros s sl f Hv. unfold exec, handle, isLoading, onFileInput. rewrite Hv.
  destruct (form s) as [st|] eqn:Hf; [|reflexivity].
  cbn. apply setForm_same. exact Hf.
Qed.

(** ** Reset *)

(** The two buttons wired to [handleReset]: "Back to Roles" works in the
    upload view and is disabled while loading; "Analyze Another Resume"
    exists when the dashboard is shown. *)
Lemma back_click_resets : forall s st,
  form s = Some st -> view s = View.upload ->
  dispatch s BackClick = render (exec handleReset s).
Proof.
  intros s st Hf Hv. unfold dispatch, exec, handle, isLoading.
  rewrite Hf, Hv. reflexivity.
Qed.

Lemma back_click_disabled_while_loading : forall s,
  view s = View.loading -> exec (handle BackClick) s = s.
Proof.
  intros s Hv. unfold exec, handle, isLoading. rewrite Hv.
  destruct (form s); reflexivity.
Qed.

Lemma reset_click_resets : forall s,
  dashboardShown s = true ->
  dispatch s ResetClick = render (exec handleReset s).
Proof.
  intros s H. unfold dispatch, exec, handle. rewrite H. reflexivity.
Qed.

(** ** Responses *)

Local Open Scope handler_scope.

Example decimal_500 : decimal 500 = "500".
Proof. reflexivity. Qed.

Lemma resume_not_ok : forall s r,
  ok r = false -> body r <> Parsed Js.Null ->
  handleAnalyze_resume (Responded r) s =
    (showToast (Js.or (detailField (body r)) (Js.Str (statusMessage (status r))))
               "error" ;;
     setView View.upload) s.
Proof.
  intros s [st b] Hok Hb. unfold handleAnalyze_resume, try_catch, bind.
  cbn [awaitFetch ret]. rewrite Hok. cbn [negb json body status].
  destruct b as [|v]; cbn.
  - reflexivity.
  - destruct v; cbn; try reflexivity. exfalso. apply Hb. reflexivity.
Qed.

Lemma resume_failed : forall s o,
  (o = NetworkError \/
   exists r, o = Responded r /\
     ((ok r = true /\ body r = Unparseable) \/
      (ok r = false /\ body r = Parsed Js.Null))) ->
  handleAnalyze_resume o s =
    (showToast (Js.Str msgUnreachable) "error" ;; setView View.upload) s.
Proof.
  intros s o [->|[[st b] [-> [[Hok Hb]|[Hok Hb]]]]];
    unfold handleAnalyze_resume, try_catch, bind; cbn [awaitFetch ret throw];
    try reflexivity; rewrite Hok; cbn in Hb; subst b; reflexivity.
Qed.

Lemma resume_ok : forall s r data,
  ok r = true -> body r = Parsed data ->
  handleAnalyze_resume (Responded r) s =
    (setResults data ;; setView View.results) s.
Proof.
  intros s [st b] data Hok Hb. cbn in Hb. subst b.
  unfold handleAnalyze_resume, try_catch, bind; cbn [awaitFetch ret].
  rewrite Hok. reflexivity.
Qed.

Lemma statusMessage_cases :
  statusMessage 415 = "Invalid file type. Please upload PDF files only." /\
  statusMessage 422 =
    "Could not read one of the PDFs. Please ensure they contain selectable text." /\
  (forall st : N, st <> 415%N -> st <> 422%N ->
     statusMessage st = "Server error (" ++ decimal st ++ "). Please try again.").
Proof.
  split; [reflexivity|]. split; [reflexivity|].
  intros st H1 H2. unfold statusMessage.
  apply N.eqb_neq in H1, H2. rewrite H1, H2. reflexivity.
Qed.

(** C10. When a response with a status outside 200-299 has a body that
    parses to an object whose [detail] member is there but falsy (the
    empty string, [0], [false] or [null]), the toast shows the message
    made from the status code, not the detail, and the view goes back to
    upload. *)
Theorem falsy_detail_discarded :
  forall (s : State) (st : N) (fields : list (string * Js.value)) (d : Js.value),
  let r := {| status := st; body := Parsed (Js.Obj fields) |} in
  ok r = false ->
  Js.lookup "detail" fields = Some d ->
  Js.truthy d = false ->
  let out := handleAnalyze_resume (Responded r) s in
  fst out = Normal tt /\
  toast (snd out) =
    Some {| toast_message := Js.Str (statusMessage st); toast_type := "error" |} /\
  view (snd out) = View.upload.
Proof.
  intros s st fields d r Hok Hd Hf out. subst out.
  rewrite resume_not_ok by (assumption || discriminate).
  cbn. rewrite Hd. unfold Js.or. rewrite Hf. repeat split.
Qed.

Lemma falsy_detail_discarded_witness :
  let r := {| status := 500;
              body := Parsed (Js.Obj [("detail", Js.Str "")]) |} in
  (ok r = false /\ Js.truthy (Js.Str "") = false) /\
  toast (snd (handleAnalyze_resume (Responded r) init)) =
    Some {| toast_message := Js.Str "Server error (500). Please try again.";
            toast_type := "error" |}.
Proof.
  intros r. split; [split; reflexivity|].
  exact (proj1 (proj2 (falsy_detail_discarded init 500
                         [("detail", Js.Str "")] (Js.Str "")
                         eq_refl eq_refl eq_refl))).
Defined.

(** C3, amended. For every response with a status outside 200-299 whose
    body is not the JSON value [null], the submission ends normally in the
    upload view with an error toast.  Its message is the [detail] member of
    the error body when that member is there and truthy; when it is absent
    or falsy the message is made from the status: the 415 text, the 422
    text, and for every other status "Server error (N). Please try again."
    with [N] the status in decimal. *)
Theorem service_failure_message : forall (s : State) (r : Response),
  ok r = false ->
  body r <> Parsed Js.Null ->
  let out := handleAnalyze_resume (Responded r) s in
  fst out = Normal tt /\
  view (snd out) = View.upload /\
  (exists m,
     toast (snd out) = Some {| toast_message := m; toast_type := "error" |} /\
     (forall d, detailField (body r) = Some d -> Js.truthy d = true -> m = d) /\
     (forall d, detailField (body r) = Some d -> Js.truthy d = false ->
        m = Js.Str (statusMessage (status r))) /\
     (detailField (body r) = None -> m = Js.Str (statusMessage (status r)))) /\
  statusMessage 415 = "Invalid file type. Please upload PDF files only." /\
  statusMessage 422 =
    "Could not read one of the PDFs. Please ensure they contain selectable text." /\
  (forall st : N, st <> 415%N -> st <> 422%N ->
     statusMessage st = "Server error (" ++ decimal st ++ "). Please try again.").
Proof.
  intros s r Hok Hb out. subst out. rewrite resume_not_ok by assumption.
  split; [reflexivity|]. split; [reflexivity|]. split; [|apply statusMessage_cases].
  eexists. split; [reflexivity|]. unfold Js.or.
  destruct (detailField (body r)) as [d|]; (split; [|split]).
  - intros d' Hd' Ht. injection Hd' as <-. rewrite Ht. reflexivity.
  - intros d' Hd' Ht. injection Hd' as <-. rewrite Ht. reflexivity.
  - discriminate.
  - discriminate.
  - discriminate.
  - reflexivity.
Qed.

Lemma service_failure_message_witness :
  let r := {| status := 422; body := Unparseable |} in
  (ok r = false /\ body r <> Parsed Js.Null) /\
  view (snd (handleAnalyze_resume (Responded r) init)) = View.upload /\
  toast (snd (handleAnalyze_resume (Responded r) init)) =
    Some {| toast_message :=
              Js.Str "Could not read one of the PDFs. Please ensure they contain selectable text.";
            toast_type := "error" |}.
Proof.
  intros r.
  assert (Hb : body r <> Parsed Js.Null) by discriminate.
  split; [split; [reflexivity | exact Hb]|].
  destruct (service_failure_message init r eq_refl Hb)
    as (_ & Hv & (m & Ht & _ & _ & Hnone) & _).
  split; [exact Hv|].
  rewrite Ht. rewrite (Hnone eq_refl). reflexivity.
Defined.

(** C3 as stated fails twice: a [detail] that is present but empty is not
    shown verbatim, and a body that is the JSON value [null] has no
    [detail] and yet the message is not the one made from the status. *)
Lemma service_failure_detail_counterexample :
  let empty := {| status := 500;
                  body := Parsed (Js.Obj [("detail", Js.Str "")]) |} in
  let null := {| status := 500; body := Parsed Js.Null |} in
  (ok empty = false /\
   detailField (body empty) = Some (Js.Str "") /\
   option_map toast_message
       (toast (snd (handleAnalyze_resume (Responded empty) init)))
     = Some (Js.Str "Server error (500). Please try again.") /\
   option_map toast_message
       (toast (snd (handleAnalyze_resume (Responded empty) init)))
     <> Some (Js.Str "")) /\
  (ok null = false /\
   detailField (body null) = None /\
   option_map toast_message
       (toast (snd (handleAnalyze_resume (Responded null) init)))
     = Some (Js.Str "Could not reach the server. Make sure the FastAPI backend is running.") /\
   option_map toast_message
       (toast (snd (handleAnalyze_resume (Responded null) init)))
     <> Some (Js.Str (statusMessage 500))).
Proof.
  intros empty null. repeat split; discriminate.
Qed.

Lemma unreachable_not_status_message : forall st : N,
  msgUnreachable <> statusMessage st.
Proof.
  intros st. unfold statusMessage.
  destruct (st =? 415)%N; [discriminate|].
  destruct (st =? 422)%N; discriminate.
Qed.

(** C2, amended. A response with a status in 200-299 whose body cannot be
    parsed never escapes [handleAnalyze]: the submission ends normally, in
    exactly the state a failed [fetch] gives, that is in the upload view
    with an error toast that says the server could not be reached; the
    stored result and the role are untouched. *)
Theorem malformed_success_is_caught : forall (s : State) (r : Response),
  ok r = true ->
  body r = Unparseable ->
  let out := handleAnalyze_resume (Responded r) s in
  out = handleAnalyze_resume NetworkError s /\
  fst out = Normal tt /\
  view (snd out) = View.upload /\
  toast (snd out) =
    Some {| toast_message :=
              Js.Str "Could not reach the server. Make sure the FastAPI backend is running.";
            toast_type := "error" |} /\
  results (snd out) = results s /\
  role (snd out) = role s.
Proof.
  intros s r Hok Hb out. subst out.
  rewrite !resume_failed; [repeat split | left; reflexivity |].
  right. exists r. split; [reflexivity|]. left. split; assumption.
Qed.

Lemma malformed_success_is_caught_witness :
  let r := {| status := 200; body := Unparseable |} in
  (ok r = true /\ body r = Unparseable) /\
  handleAnalyze_resume (Responded r) init = handleAnalyze_resume NetworkError init.
Proof.
  intros r. split; [split; reflexivity|].
  exact (proj1 (malformed_success_is_caught init r eq_refl eq_refl)).
Defined.

(** C2 as stated fails: after a 200 response with an unparseable body the
    toast carries the could-not-reach-the-server text, which is not the
    message a service failure without [detail] gets for any status. *)
Lemma malformed_success_counterexample :
  let r := {| status := 200; body := Unparseable |} in
  ok r = true /\
  option_map toast_message
      (toast (snd (handleAnalyze_resume (Responded r) init)))
    = Some (Js.Str "Could not reach the server. Make sure the FastAPI backend is running.") /\
  (forall st : N,
     option_map toast_message
         (toast (snd (handleAnalyze_resume (Responded r) init)))
       <> Some (Js.Str (statusMessage st))).
Proof.
  intros r. split; [reflexivity|]. split; [reflexivity|].
  intros st H. cbn in H. injection H as H.
  exact (unreachable_not_status_message st H).
Qed.

(** ** The results view *)

(** How the second half of [handleAnalyze] ends: in the results view with
    the parsed body stored, or in the upload view with the stored result
    untouched; it never touches the role, the form or the request list. *)
Lemma resume_outcome : forall o s,
  let s' := snd (handleAnalyze_resume o s) in
  role s' = role s /\ form s' = form s /\ inflight s' = inflight s /\
  ((view s' = View.upload /\ results s' = results s) \/
   (view s' = View.results /\
    exists r, o = Responded r /\ ok r = true /\ body r = Parsed (results s'))).
Proof.
  intros o s s'. subst s'. destruct o as [|r].
  - rewrite resume_failed by (left; reflexivity). cbn. tauto.
  - destruct (ok r) eqn:Hok; destruct (body r) as [|v] eqn:Hb.
    + rewrite resume_failed by (right; exists r; tauto). cbn. tauto.
    + rewrite (resume_ok s r v Hok Hb). cbn. repeat split.
      right. split; [reflexivity|]. exists r. repeat split; assumption.
    + rewrite resume_not_ok by (assumption || (rewrite Hb; discriminate)).
      cbn. tauto.
    + destruct v;
        try (rewrite resume_not_ok by (assumption || (rewrite Hb; discriminate));
             cbn; tauto).
      rewrite resume_failed by (right; exists r; tauto). cbn. tauto.
Qed.

Lemma render_fields : forall s,
  view (render s) = view s /\ role (render s) = role s /\
  results (render s) = results s /\ inflight (render s) = inflight s /\
  toast (render s) = toast s.
Proof.
  intros [v r d t f l]. unfold render; cbn. destruct v, f; cbn; repeat split.
Qed.

Lemma Inv_render : forall s,
  (inflight s = [] \/ (view s = View.loading /\ exists fd, inflight s = [fd])) ->
  (view s <> View.idle -> role s <> None) ->
  (view s = View.results -> results s <> Js.Null) ->
  Inv (render s).
Proof.
  intros s H1 H2 H3. destruct (render_fields s) as (Ev & Er & Ed & El & _).
  unfold Inv. rewrite render_idem, Ev, Er, Ed, El. tauto.
Qed.

Lemma rendered_form_view : forall s st,
  render s = s -> form s = Some st ->
  view s = View.upload \/ view s = View.loading.
Proof.
  intros [v r d t f l] st Hr Hf. cbn in Hf. subst f.
  destruct v; cbn in *; try tauto; discriminate.
Qed.

(** The step for a handler that leaves [view], [role], [results] and
    [inflight] alone. *)
Ltac untouched := apply Inv_render; cbn; assumption.

Lemma Inv_dispatch : forall s e,
  Inv s -> orderlyEvent s e = true -> Inv (dispatch s e).
Proof.
  intros s e (Hr & Hin & Hrole & Hres) Hord. unfold dispatch.
  destruct e as [r| sl f | | | | o | |]; unfold exec, handle; cbn beta iota.
  - (* RoleClick *)
    cbn in Hord. destruct (inflight s) eqn:El; [|discriminate].
    apply Inv_render; cbn; try rewrite El; try tauto; try discriminate.
  - (* FileInput *)
    destruct (form s); untouched.
  - (* SubmitClick *)
    unfold handleSubmit. destruct (form s) as [st|] eqn:Hf;
      [|untouched].
    destruct (truthy (canSubmit st (isLoading s))) eqn:Hc;
      [|untouched].
    apply canSubmit_truthy in Hc. destruct Hc as (_ & _ & Hl).
    apply isLoading_false in Hl.
    destruct (rendered_form_view s st Hr Hf) as [Hv|Hv]; [|contradiction].
    destruct Hin as [El|[Hv' _]]; [|congruence].
    apply Inv_render; cbn.
    + right. split; [reflexivity|]. rewrite El. eexists. reflexivity.
    + intros _. apply Hrole. congruence.
    + discriminate.
  - (* BackClick *)
    destruct (form s) as [st|] eqn:Hf; [|untouched].
    destruct (isLoading s) eqn:Hl; [untouched|].
    apply isLoading_false in Hl.
    apply Inv_render; cbn; try tauto; discriminate.
  - (* ResetClick *)
    destruct (dashboardShown s) eqn:Hd; [|untouched].
    apply andb_true_iff in Hd. destruct Hd as [Hv _].
    apply Inv_render; cbn; try tauto; try discriminate.
    destruct Hin as [El|[Hv' _]]; [left; exact El|].
    rewrite Hv' in Hv. discriminate.
  - (* FetchSettled *)
    destruct (inflight s) as [|fd rest] eqn:El;
      [apply Inv_render; cbn; rewrite ?El; tauto|].
    destruct Hin as [Hnil|[Hv [fd' Hfd]]]; [discriminate|].
    injection Hfd as _ ->.
    unfold bind. cbn [setInflight modify].
    match goal with |- Inv (render (snd (handleAnalyze_resume o ?s0))) =>
      pose proof (resume_outcome o s0) as Hout; cbn zeta in Hout;
      set (s' := snd (handleAnalyze_resume o s0)) in *
    end.
    cbn [role form inflight results] in Hout.
    destruct Hout as (Er & _ & El' & Hcase).
    apply Inv_render.
    + left. exact El'.
    + intros _. rewrite Er. apply Hrole. rewrite Hv. discriminate.
    + intros Hvr. destruct Hcase as [[Hu _]|[_ (r & -> & Hok & Hb)]];
        [congruence|].
      cbn in Hord. rewrite Hb, Hok in Hord. cbn in Hord.
      intros Hnull. rewrite Hnull in Hord. discriminate.
  - (* ToastClose *)
    untouched.
  - (* SizeTimer *)
    destruct (form s); untouched.
Qed.

Lemma Inv_init : Inv init.
Proof.
  repeat split; cbn; try tauto; try discriminate; congruence.
Qed.

Lemma Inv_run : forall events s,
  Inv s -> orderly s events = true -> Inv (run s events).
Proof.
  induction events as [|e rest IH]; intros s Hs Ho.
  - exact Hs.
  - cbn in Ho. apply andb_true_iff in Ho. destruct Ho as [H1 H2].
    cbn. apply IH; [apply Inv_dispatch; assumption | exact H2].
Qed.

(** C1, amended. In every state reached from the initial one by an orderly
    run (no role button clicked while a request is in flight, no response
    with a 2xx status whose body is the JSON value [null]), whenever the
    view is results the stored result is not [null] and the role is set. *)
Theorem results_view_has_result_and_role : forall events : list Event,
  orderly init events = true ->
  let s := run init events in
  view s = View.results -> results s <> Js.Null /\ role s <> None.
Proof.
  intros events Ho s Hv.
  destruct (Inv_run events init Inv_init Ho) as (_ & _ & Hrole & Hres).
  fold s in Hrole, Hres. split.
  - apply Hres. exact Hv.
  - apply Hrole. rewrite Hv. discriminate.
Qed.

Lemma results_view_has_result_and_role_witness :
  let events :=
    (submitted recruiter ++
     [FetchSettled (Responded {| status := 200; body := Parsed report |})])%list in
  (orderly init events = true /\ view (run init events) = View.results) /\
  results (run init events) <> Js.Null /\ role (run init events) <> None.
Proof.
  intros events.
  assert (Ho : orderly init events = true) by reflexivity.
  assert (Hv : view (run init events) = View.results) by reflexivity.
  split; [split; assumption|].
  exact (results_view_has_result_and_role events Ho Hv).
Defined.

(** C1 as stated fails twice: a 200 response whose body is the JSON value
    [null] leaves the results view with a null result; and a role click
    while the request is in flight, then "Back to Roles", then the
    response, leaves the results view with no role. *)
Lemma results_view_counterexample :
  let nullBody :=
    (submitted recruiter ++
     [FetchSettled (Responded {| status := 200; body := Parsed Js.Null |})])%list in
  let race :=
    (submitted recruiter ++
     [RoleClick applier; BackClick;
      FetchSettled (Responded {| status := 200; body := Parsed report |})])%list in
  (view (run init nullBody) = View.results /\
   results (run init nullBody) = Js.Null) /\
  (view (run init race) = View.results /\
   role (run init race) = None).
Proof.
  intros nullBody race. repeat split.
Qed.

(** ** The Reset event *)

(** C8, amended. The Reset event is a click on "Back to Roles", which the
    upload form offers unless the view is loading, or on "Analyze Another
    Resume", which the dashboard offers under its guard.  Raised from the
    upload view or from the results view it gives the idle view with no
    role and no stored result.  While the view is loading neither button
    does anything.  In no state does the event change what the upload form
    holds: the two files are the form's own state and are not cleared by
    [handleReset]; nor does it change the requests in flight or the
    toast. *)
Theorem reset_event_clears_workflow : forall s : State,
  (form s <> None -> view s <> View.loading ->
     view (dispatch s BackClick) = View.idle /\
     role (dispatch s BackClick) = None /\
     results (dispatch s BackClick) = Js.Null) /\
  (dashboardShown s = true ->
     view (dispatch s ResetClick) = View.idle /\
     role (dispatch s ResetClick) = None /\
     results (dispatch s ResetClick) = Js.Null) /\
  (view s = View.loading ->
     exec (handle BackClick) s = s /\ exec (handle ResetClick) s = s) /\
  (forall e, e = BackClick \/ e = ResetClick ->
     form (exec (handle e) s) = form s /\
     inflight (exec (handle e) s) = inflight s /\
     toast (exec (handle e) s) = toast s).
Proof.
  intros s. split; [|split; [|split]].
  - intros Hf Hv. apply isLoading_false in Hv.
    destruct (render_fields (exec (handle BackClick) s)) as (Ev & Er & Ed & _).
    unfold dispatch. rewrite Ev, Er, Ed.
    unfold exec, handle. destruct (form s); [|congruence].
    rewrite Hv. repeat split.
  - intros Hd.
    destruct (render_fields (exec (handle ResetClick) s)) as (Ev & Er & Ed & _).
    unfold dispatch. rewrite Ev, Er, Ed.
    unfold exec, handle. rewrite Hd. repeat split.
  - intros Hv. split.
    + apply back_click_disabled_while_loading. exact Hv.
    + unfold exec, handle, dashboardShown. rewrite Hv. reflexivity.
  - intros e [->| ->]; unfold exec, handle.
    + destruct (form s) as [st|] eqn:Hf; [destruct (isLoading s)|];
        cbn; rewrite ?Hf; repeat split.
    + destruct (dashboardShown s); cbn; repeat split.
Qed.

Lemma reset_event_clears_workflow_witness :
  let inUpload := run init [RoleClick recruiter; FileInput ResumeSlot (Some pdf)] in
  let inLoading := run init (submitted recruiter) in
  let inResults :=
    run init (submitted recruiter ++
              [FetchSettled (Responded {| status := 200; body := Parsed report |})])%list in
  ((form inUpload <> None /\ view inUpload <> View.loading) /\
   view (dispatch inUpload BackClick) = View.idle /\
   role (dispatch inUpload BackClick) = None) /\
  (dashboardShown inResults = true /\
   view (dispatch inResults ResetClick) = View.idle /\
   results (dispatch inResults ResetClick) = Js.Null) /\
  (view inLoading = View.loading /\
   exec (handle BackClick) inLoading = inLoading) /\
  form (exec (handle BackClick) inUpload) = form inUpload.
Proof.
  intros inUpload inLoading inResults.
  assert (Hf : form inUpload <> None) by discriminate.
  assert (Hv : view inUpload <> View.loading) by discriminate.
  assert (Hd : dashboardShown inResults = true) by reflexivity.
  assert (Hl : view inLoading = View.loading) by reflexivity.
  split; [|split; [|split]].
  - destruct (proj1 (reset_event_clears_workflow inUpload) Hf Hv) as (H1 & H2 & _).
    repeat split; assumption.
  - destruct (proj1 (proj2 (reset_event_clears_workflow inResults)) Hd)
      as (H1 & _ & H3).
    repeat split; assumption.
  - split; [exact Hl|].
    exact (proj1 (proj1 (proj2 (proj2 (reset_event_clears_workflow inLoading))) Hl)).
  - exact (proj1 (proj2 (proj2 (proj2 (reset_event_clears_workflow inUpload)))
                    BackClick (or_introl eq_refl))).
Defined.

(** C8 as stated fails twice.  From the loading view the Reset event does
    not give the idle view: "Back to Roles" is disabled and the dashboard
    is absent, so the state stays as it is.  And [handleReset] does not
    empty the slots: right after it has run in the upload view both files
    are still what the upload form holds. *)
Lemma reset_counterexample :
  let inLoading := run init (submitted recruiter) in
  let filled := run init [RoleClick recruiter; FileInput ResumeSlot (Some pdf);
                          FileInput JdSlot (Some pdf)] in
  (view inLoading = View.loading /\
   dispatch inLoading BackClick = inLoading /\
   dispatch inLoading ResetClick = inLoading /\
   view (dispatch inLoading BackClick) <> View.idle /\
   role (dispatch inLoading BackClick) <> None) /\
  (view filled = View.upload /\
   view (exec (handle BackClick) filled) = View.idle /\
   slotOf ResumeSlot (exec (handle BackClick) filled) = Some pdf /\
   slotOf JdSlot (exec (handle BackClick) filled) = Some pdf).
Proof.
  intros inLoading filled. repeat split; discriminate.
Qed.

(** ** The three scenarios of the specification *)

Example scenario_report :
  let s := run init
    (submitted recruiter ++
     [FetchSettled (Responded {| status := 200; body := Parsed report |})])%list in
  view s = View.results /\ results s = report /\ role s = Some recruiter /\
  dashboardShown s = true /\ inflight s = [].
Proof. repeat split. Qed.

Example scenario_unreadable :
  let s := run init
    (submitted applier ++
     [FetchSettled (Responded {| status := 422; body := Unparseable |})])%list in
  view s = View.upload /\
  toast s =
    Some {| toast_message :=
              Js.Str "Could not read one of the PDFs. Please ensure they contain selectable text.";
            toast_type := "error" |} /\
  slotOf ResumeSlot s = Some pdf /\ slotOf JdSlot s = Some pdf.
Proof. repeat split. Qed.

Example scenario_too_large :
  let big := {| file_name := "cv.pdf"; file_type := "application/pdf";
                file_size := 2097152 |} in
  let s := run init [RoleClick applier; FileInput ResumeSlot (Some big)] in
  view s = View.upload /\ slotOf ResumeSlot s = None /\
  option_map sizeError (form s) = Some (Some tooLargeMessage).
Proof. repeat split. Qed.

Example statuses_tested :
  statusMessage 415 = "Invalid file type. Please upload PDF files only." /\
  statusMessage 422 =
    "Could not read one of the PDFs. Please ensure they contain selectable text." /\
  statusMessage 500 = "Server error (500). Please try again." /\
  statusMessage 503 = "Server error (503). Please try again.".
Proof. repeat split. Qed.

(** ** Score bands *)

Import ResultsDashboard.

Local Open Scope Q_scope.

Lemma Qle_bool_false : forall a b : Q, a < b -> Qle_bool b a = false.
Proof.
  intros a b H. destruct (Qle_bool b a) eqn:E; [|reflexivity].
  apply Qle_bool_iff in E. exfalso. apply (Qlt_not_le _ _ H E).
Qed.

(** C7. [scoreColor] gives the strong band and "Strong Match" from 75
    upwards, the moderate band and "Moderate Match" from 50 up to but not
    including 75, and the weak band and "Weak Match" below 50; so it is
    strong at 75 and 100, moderate at 50 and 74.999, weak at 0 and 49.999. *)
Theorem scoreColor_bands : forall pct : Q,
  (75 <= pct ->
     bandOf (scoreColor pct) = Some Strong /\
     label (scoreColor pct) = "Strong Match"%string) /\
  (50 <= pct -> pct < 75 ->
     bandOf (scoreColor pct) = Some Moderate /\
     label (scoreColor pct) = "Moderate Match"%string) /\
  (pct < 50 ->
     bandOf (scoreColor pct) = Some Weak /\
     label (scoreColor pct) = "Weak Match"%string).
Proof.
  intros pct. unfold scoreColor. split; [|split].
  - intros H. apply Qle_bool_iff in H. rewrite H. split; reflexivity.
  - intros H H0. apply Qle_bool_false in H0. apply Qle_bool_iff in H.
    rewrite H0, H. split; reflexivity.
  - intros H. assert (H75 : pct < 75) by lra.
    apply Qle_bool_false in H, H75. rewrite H75, H. split; reflexivity.
Qed.

Lemma scoreColor_bands_witness :
  (bandOf (scoreColor 75) = Some Strong /\
   bandOf (scoreColor 100) = Some Strong) /\
  (bandOf (scoreColor 50) = Some Moderate /\
   bandOf (scoreColor (74999 # 1000)) = Some Moderate) /\
  (bandOf (scoreColor 0) = Some Weak /\
   bandOf (scoreColor (49999 # 1000)) = Some Weak).
Proof.
  split; [split | split; split].
  - refine (proj1 (proj1 (scoreColor_bands 75) _)). lra.
  - refine (proj1 (proj1 (scoreColor_bands 100) _)). lra.
  - refine (proj1 (proj1 (proj2 (scoreColor_bands 50)) _ _)); lra.
  - refine (proj1 (proj1 (proj2 (scoreColor_bands (74999 # 1000))) _ _)); lra.
  - refine (proj1 (proj2 (proj2 (scoreColor_bands 0)) _)). lra.
  - refine (proj1 (proj2 (proj2 (scoreColor_bands (49999 # 1000))) _)). lra.
Defined.

(** ** The progress animation *)

Lemma cube : forall x : Q, x ^ 3 == x * x * x.
Proof. intros x. simpl. ring. Qed.

Lemma sq_nonneg : forall x : Q, 0 <= x * x.
Proof. intros x. nra. Qed.

Lemma cube_mono : forall a b : Q, a <= b -> a ^ 3 <= b ^ 3.
Proof.
  intros a b H. rewrite !cube.
  assert (H0 : 0 <= (b - a) * ((a + b) * (a + b) + a * a + b * b)).
  { apply Qmult_le_0_compat; [lra|].
    pose proof (sq_nonneg (a + b)). pose proof (sq_nonneg a).
    pose proof (sq_nonneg b). lra. }
  lra.
Qed.

Lemma eased_mono : forall p q : Q, p <= q -> eased p <= eased q.
Proof.
  intros p q H. unfold eased.
  assert (H1 : (1 - q) ^ 3 <= (1 - p) ^ 3) by (apply cube_mono; lra).
  lra.
Qed.

Lemma div_duration_le : forall a b : Q, a <= b -> a / duration <= b / duration.
Proof.
  intros a b H. unfold Qdiv. apply Qmult_le_compat_r; [exact H|].
  unfold duration. discriminate.
Qed.

Lemma div_duration_zero : forall a : Q, (a - a) / duration == 0.
Proof. intros a. unfold duration. field. Qed.

Lemma div_duration_one : forall a b : Q,
  a + duration <= b -> 1 <= (b - a) / duration.
Proof.
  intros a b H.
  assert (E : 1 == duration / duration) by (unfold duration; field).
  rewrite E. apply div_duration_le. lra.
Qed.

Lemma min_zero_one : Qmin 0 1 == 0.
Proof. apply Q.min_l. discriminate. Qed.

Lemma progress_le_1 : forall a ts, progress a ts <= 1.
Proof. intros a ts. unfold progress. apply Q.le_min_r. Qed.

Section Animation.

(** The target of the animation, [score] in [CircularScore]. *)
Variable score : Q.

(** The next frame's normalized time is not below this frame's. *)
Lemma progress_step_mono : forall a ts0 ts,
  ts0 <= ts -> progress a ts0 <= progress (step score a ts0) ts.
Proof.
  intros a ts0 ts H. unfold progress at 2. unfold startAt at 1. simpl.
  destruct (Qeq_bool (startAt a ts0) 0) eqn:E.
  - rewrite div_duration_zero, min_zero_one.
    apply Qeq_bool_iff in E.
    unfold progress. unfold startAt in *.
    destruct (start a) as [s|].
    + destruct (Qeq_bool s 0) eqn:E'.
      * rewrite div_duration_zero, min_zero_one. apply Qle_refl.
      * apply Qeq_bool_iff in E. rewrite E in E'. discriminate.
    + rewrite div_duration_zero, min_zero_one. apply Qle_refl.
  - unfold progress. apply Q.min_le_compat_r. apply div_duration_le. lra.
Qed.

(** While the frames come in time order the normalized times never go
    down; [p] is the previous normalized time. *)
Lemma samples_times_ascending : forall frames a last p,
  (forall ts, last <= ts -> p <= progress a ts) ->
  ascending (last :: frames) ->
  ascending (p :: map fst (samples score a frames)).
Proof.
  induction frames as [|ts rest IH]; intros a last p Hp Hasc.
  - exact I.
  - cbn [samples]. destruct (scheduled a); [|exact I].
    destruct Hasc as [Hle Hrest]. cbn [map fst]. split.
    + apply Hp. exact Hle.
    + apply (IH _ ts); [|exact Hrest].
      intros ts' Hts'. apply progress_step_mono. exact Hts'.
Qed.

(** Every sample lies on the curve of the specification. *)
Lemma samples_on_curve : forall frames a,
  Forall (fun tv => snd tv == value score (fst tv) /\ fst tv <= 1)
         (samples score a frames).
Proof.
  induction frames as [|ts rest IH]; intros a.
  - constructor.
  - cbn [samples]. destruct (scheduled a); constructor.
    + split; [|apply progress_le_1].
      cbn [fst snd step animated]. unfold value, eased. ring.
    + apply IH.
Qed.

Lemma value_mono : forall t u,
  0 <= score -> t <= u -> value score t <= value score u.
Proof.
  intros t u Hs Htu. unfold value.
  pose proof (eased_mono t u Htu) as He. unfold eased in He.
  rewrite !(Qmult_comm score). apply Qmult_le_compat_r; assumption.
Qed.

Lemma values_ascending : forall l t0 v0,
  0 <= score -> v0 == value score t0 ->
  Forall (fun tv => snd tv == value score (fst tv) /\ fst tv <= 1) l ->
  ascending (t0 :: map fst l) -> ascending (v0 :: map snd l).
Proof.
  induction l as [|[t v] rest IH]; intros t0 v0 Hs Hv0 Hall Hasc.
  - exact I.
  - inversion Hall as [|x xs [Hv _] Hrest]; subst.
    destruct Hasc as [Hle Hasc]. cbn [map fst snd] in *. split.
    + rewrite Hv0, Hv. apply value_mono; assumption.
    + apply (IH t); assumption.
Qed.

(** Once no callback is requested nothing runs any more. *)
Lemma stopped : forall a frames,
  scheduled a = false ->
  animate score a frames = a /\ samples score a frames = [].
Proof.
  intros a frames H. destruct frames; cbn; rewrite ?H; split; reflexivity.
Qed.

Lemma Qltb_false : forall a b, Qltb a b = false <-> b <= a.
Proof.
  intros a b. unfold Qltb. rewrite negb_false_iff. apply Qle_bool_iff.
Qed.

Lemma eased_at_one : forall p, 1 <= p -> p <= 1 -> eased p * score == score.
Proof.
  intros p H1 H2. assert (E : p == 1) by (apply Qle_antisym; assumption).
  unfold eased. rewrite E. simpl. ring.
Qed.

(** A sample at normalized time 1 is the target and ends the samples. *)
Lemma last_sample : forall frames a pre t v post,
  samples score a frames = (pre ++ (t, v) :: post)%list ->
  1 <= t -> v == score /\ post = [].
Proof.
  induction frames as [|ts rest IH]; intros a pre t v post E Ht.
  - destruct pre; discriminate.
  - cbn [samples] in E. destruct (scheduled a); [|destruct pre; discriminate].
    destruct pre as [|x pre]; cbn [app] in E.
    + injection E as E1 E2 E3. subst t v. split.
      * cbn [animated step]. apply eased_at_one; [exact Ht | apply progress_le_1].
      * assert (Hs : scheduled (step score a ts) = false).
        { cbn [scheduled step]. apply Qltb_false. exact Ht. }
        rewrite (proj2 (stopped _ rest Hs)) in E3. symmetry. exact E3.
    + injection E as _ E. apply (IH _ _ _ _ _ E Ht).
Qed.

(** With the start fixed at [s], a frame at [s + duration] or later ends
    the animation on the target. *)
Lemma runs_to_target : forall rest a s,
  start a = Some s -> ~ s == 0 -> scheduled a = true ->
  (exists ts, In ts rest /\ s + duration <= ts) ->
  scheduled (animate score a rest) = false /\
  animated (animate score a rest) == score.
Proof.
  induction rest as [|ts rest IH]; intros a s Hst Hs Hsch [w [Hin Hw]].
  - destruct Hin.
  - cbn [animate]. rewrite Hsch.
    assert (Hsa : startAt a ts = s).
    { unfold startAt. rewrite Hst. destruct (Qeq_bool s 0) eqn:E; [|reflexivity].
      apply Qeq_bool_iff in E. contradiction. }
    destruct (scheduled (step score a ts)) eqn:Hnext.
    + apply (IH _ s); [cbn; rewrite Hsa; reflexivity | exact Hs | exact Hnext |].
      destruct Hin as [<-|Hin]; [|exists w; split; assumption].
      exfalso. cbn [scheduled step] in Hnext. unfold Qltb in Hnext.
      apply negb_true_iff in Hnext.
      assert (Hge : 1 <= progress a ts).
      { unfold progress. rewrite Hsa. apply Q.min_glb; [|apply Qle_refl].
        apply div_duration_one. exact Hw. }
      apply Qle_bool_iff in Hge. congruence.
    + rewrite (proj1 (stopped _ rest Hnext)). split; [exact Hnext|].
      cbn [animated step]. apply eased_at_one; [|apply progress_le_1].
      cbn [scheduled step] in Hnext. apply Qltb_false. exact Hnext.
Qed.

End Animation.

Lemma progress_mounted : forall ts, progress mounted ts == 0.
Proof.
  intros ts. unfold progress, startAt. cbn [start mounted].
  rewrite div_duration_zero. apply min_zero_one.
Qed.

(** C9 as stated fails for a negative target: over frames in time order
    the values go 0, -87.5, -100. *)
Lemma animation_negative_target_descends :
  ascending [16; 566; 1116] /\
  Forall2 Qeq (map snd (samples (-100) mounted [16; 566; 1116]))
              [0; - (175 # 2); -100] /\
  ~ ascending (animated mounted
                 :: map snd (samples (-100) mounted [16; 566; 1116])).
Proof.
  split; [|split].
  - cbn. repeat split; discriminate.
  - repeat constructor; vm_compute; reflexivity.
  - intros H. vm_compute in H. destruct H as (_ & H & _). apply H. reflexivity.
Qed.

Local Close Scope Q_scope.

(** * Further properties of the workflow *)

Import Workflow.

Lemma statusMessage_truthy : forall st : N,
  Js.truthy (Js.Str (statusMessage st)) = true.
Proof.
  intros st. unfold statusMessage.
  destruct (st =? 415)%N; [reflexivity|].
  destruct (st =? 422)%N; reflexivity.
Qed.

Lemma or_truthy : forall d b, Js.truthy b = true -> Js.truthy (Js.or d b) = true.
Proof.
  intros [v|] b Hb; cbn; [|exact Hb].
  destruct (Js.truthy v) eqn:E; assumption.
Qed.

(** The second half of [handleAnalyze] leaves the toast alone or raises an
    error toast. *)
Lemma resume_toast : forall o s,
  errorToast (toast s) -> errorToast (toast (snd (handleAnalyze_resume o s))).
Proof.
  intros o s Ht. destruct o as [|r].
  - rewrite resume_failed by (left; reflexivity). cbn. split; reflexivity.
  - destruct (ok r) eqn:Hok; destruct (body r) as [|v] eqn:Hb.
    + rewrite resume_failed by (right; exists r; tauto). cbn. split; reflexivity.
    + rewrite (resume_ok s r v Hok Hb). exact Ht.
    + rewrite resume_not_ok by (assumption || (rewrite Hb; discriminate)).
      cbn. split; [reflexivity|]. apply or_truthy, statusMessage_truthy.
    + destruct v;
        try (rewrite resume_not_ok by (assumption || (rewrite Hb; discriminate));
             cbn; split; [reflexivity|]; apply or_truthy, statusMessage_truthy).
      rewrite resume_failed by (right; exists r; tauto). cbn. split; reflexivity.
Qed.

Lemma Sound_render : forall s,
  (view s = View.idle -> role s = None /\ results s = Js.Null) ->
  (view s = View.loading -> inflight s <> []) ->
  errorToast (toast s) ->
  Sound (render s).
Proof.
  intros s H1 H2 H3. destruct (render_fields s) as (Ev & Er & Ed & El & Et).
  unfold Sound. rewrite render_idem, Ev, Er, Ed, El, Et. tauto.
Qed.

Ltac same_core := apply Sound_render; cbn -[errorToast]; assumption.

Lemma Sound_dispatch : forall s e, Sound s -> Sound (dispatch s e).
Proof.
  intros s e (Hr & Hidle & Hload & Ht). unfold dispatch.
  destruct e as [r| sl f | | | | o | |]; unfold exec, handle; cbn beta iota.
  - apply Sound_render; cbn; [discriminate | discriminate | exact Ht].
  - destruct (form s); same_core.
  - unfold handleSubmit. destruct (form s) as [st|]; [|same_core].
    destruct (truthy (canSubmit st (isLoading s))); [|same_core].
    apply Sound_render; cbn; [discriminate | | exact Ht].
    intros _ H. destruct (inflight s); discriminate.
  - destruct (form s) as [st|]; [|same_core].
    destruct (isLoading s); [same_core|].
    apply Sound_render; cbn; [tauto | discriminate | exact Ht].
  - destruct (dashboardShown s); [|same_core].
    apply Sound_render; cbn; [tauto | discriminate | exact Ht].
  - destruct (inflight s) as [|fd rest] eqn:El;
      [apply Sound_render; cbn -[errorToast]; rewrite ?El; assumption|].
    unfold bind. cbn [setInflight modify].
    match goal with |- Sound (render (snd (handleAnalyze_resume o ?s0))) =>
      pose proof (resume_outcome o s0) as Hout; cbn zeta in Hout;
      pose proof (resume_toast o s0 Ht) as Htoast;
      set (s' := snd (handleAnalyze_resume o s0)) in *
    end.
    destruct Hout as (_ & _ & _ & [[Hv _]|[Hv _]]);
      apply Sound_render; rewrite ?Hv; try discriminate; exact Htoast.
  - apply Sound_render; cbn; try assumption. exact I.
  - destruct (form s); same_core.
Qed.

Lemma Sound_init : Sound init.
Proof. repeat split; cbn; discriminate. Qed.

Lemma Sound_run : forall events, Sound (run init events).
Proof.
  intros events. induction events as [|e events IH] using rev_ind.
  - apply Sound_init.
  - rewrite run_snoc. apply Sound_dispatch. exact IH.
Qed.

Lemma rendered_form_some : forall s,
  render s = s -> (view s = View.upload \/ view s = View.loading) ->
  exists st, form s = Some st.
Proof.
  intros [v r d t f l] Hr [Hv|Hv]; cbn in Hv; subst v; cbn in Hr;
    destruct f as [st|]; try discriminate; exists st; reflexivity.
Qed.

Import Handlers.

Lemma call_idle : forall s c,
  (view s = View.idle -> role s = None /\ results s = Js.Null) ->
  view (call s c) = View.idle ->
  role (call s c) = None /\ results (call s c) = Js.Null.
Proof.
  intros s c Hs. destruct c as [r|a b|o| | |f|l]; cbn; try exact Hs;
    try discriminate; try (intros _; split; reflexivity).
  intros Hv. destruct (resume_outcome o s) as (_ & _ & _ & [[Hu _]|[Hr _]]).
  - unfold exec in Hv. rewrite Hu in Hv. discriminate.
  - unfold exec in Hv. rewrite Hr in Hv. discriminate.
Qed.

(** Every event of the application is a sequence of such calls. *)
Lemma render_is_call : forall s, render s = call s (CallSetForm (form (render s))).
Proof. intros [v r d t f l]. destruct v, f; reflexivity. Qed.

Lemma dispatch_is_calls : forall s e, exists l, dispatch s e = calls s l.
Proof.
  intros s e. unfold dispatch. rewrite render_is_call.
  set (f := form (render (exec (handle e) s))). clearbody f.
  assert (H : exists l, exec (handle e) s = calls s l).
  { destruct e as [r|sl fi| | | |o| |]; unfold exec, handle, handleSubmit.
    - exists [CallRoleSelect r]. reflexivity.
    - destruct (form s) as [st|].
      + exists [CallSetForm (Some (onFileInput sl (isLoading s) fi st))].
        reflexivity.
      + exists []. reflexivity.
    - destruct (form s) as [st|]; [|exists []; reflexivity].
      destruct (truthy (canSubmit st (isLoading s))); [|exists []; reflexivity].
      exists [CallAnalyze (resumeFile st) (jdFile st)]. reflexivity.
    - destruct (form s) as [st|]; [|exists []; reflexivity].
      destruct (isLoading s); [exists []; reflexivity|].
      exists [CallReset]. reflexivity.
    - destruct (dashboardShown s); [|exists []; reflexivity].
      exists [CallReset]. reflexivity.
    - destruct (inflight s) as [|fd rest]; [exists []; reflexivity|].
      exists [CallSetInflight rest; CallSettle o]. reflexivity.
    - exists [CallToastClose]. reflexivity.
    - destruct (form s) as [st|]; [|exists []; reflexivity].
      exists [CallSetForm (Some (sizeTimerFired st))]. reflexivity. }
  destruct H as [l ->]. exists (l ++ [CallSetForm f])%list.
  unfold calls. rewrite fold_left_app. reflexivity.
Qed.

(** X1. After any sequence of handler calls from the initial state,
    whatever raised them and in whatever order, whenever the view is idle
    the role is null and the stored result is null. *)
Theorem idle_view_has_no_role_no_result : forall l : list Call,
  let s := calls init l in
  view s = View.idle -> role s = None /\ results s = Js.Null.
Proof.
  intros l. induction l as [|c l IH] using rev_ind; intros s.
  - intros _. split; reflexivity.
  - subst s. unfold calls. rewrite fold_left_app. cbn [fold_left].
    apply call_idle. exact IH.
Qed.

Lemma idle_view_has_no_role_no_result_witness :
  let l := [CallRoleSelect recruiter; CallAnalyze (Some pdf) (Some pdf);
            CallSettle (Responded {| status := 200; body := Parsed report |});
            CallReset; CallSettle NetworkError; CallReset] in
  view (calls init l) = View.idle /\
  role (calls init l) = None /\ results (calls init l) = Js.Null.
Proof.
  intros l.
  assert (Hv : view (calls init l) = View.idle) by reflexivity.
  split; [exact Hv|]. exact (idle_view_has_no_role_no_result l Hv).
Defined.

(** X2. In every reachable state the loading view has a request in
    flight, and a request that settles always leaves the upload or the
    results view: the loading view never stays without a request that
    ends it. *)
Theorem loading_has_request : forall events : list Event,
  let s := run init events in
  (view s = View.loading -> inflight s <> []) /\
  (forall o, inflight s <> [] ->
     view (dispatch s (FetchSettled o)) = View.upload \/
     view (dispatch s (FetchSettled o)) = View.results).
Proof.
  intros events s. split.
  - destruct (Sound_run events) as (_ & _ & Hl & _). exact Hl.
  - intros o Hin. unfold dispatch, exec, handle.
    destruct (inflight s) as [|fd rest]; [congruence|].
    unfold bind. cbn [setInflight modify].
    match goal with |- context [handleAnalyze_resume o ?s0] =>
      pose proof (resume_outcome o s0) as Hout; cbn zeta in Hout;
      set (s' := snd (handleAnalyze_resume o s0)) in *
    end.
    destruct (render_fields s') as (Ev & _). rewrite Ev.
    destruct Hout as (_ & _ & _ & [[Hv _]|[Hv _]]); tauto.
Qed.

Lemma loading_has_request_witness :
  let s := run init (submitted recruiter) in
  (view s = View.loading /\ inflight s <> []) /\
  (view (dispatch s (FetchSettled NetworkError)) = View.upload \/
   view (dispatch s (FetchSettled NetworkError)) = View.results).
Proof.
  intros s.
  assert (Hv : view s = View.loading) by reflexivity.
  destruct (loading_has_request (submitted recruiter)) as [H1 H2].
  split; [split; [exact Hv | exact (H1 Hv)]|].
  exact (H2 NetworkError (H1 Hv)).
Defined.

(** X3. Every toast the application ever holds has type "error" and a
    truthy message: either a truthy [detail] or one of the fixed texts. *)
Theorem toasts_are_error_toasts : forall (events : list Event) (t : Toast),
  toast (run init events) = Some t ->
  toast_type t = "error" /\ Js.truthy (toast_message t) = true.
Proof.
  intros events t Ht.
  destruct (Sound_run events) as (_ & _ & _ & He). rewrite Ht in He. exact He.
Qed.

Lemma toasts_are_error_toasts_witness :
  let events := (submitted applier ++ [FetchSettled NetworkError])%list in
  toast (run init events) =
    Some {| toast_message := Js.Str msgUnreachable; toast_type := "error" |} /\
  Js.truthy (Js.Str msgUnreachable) = true.
Proof.
  intros events.
  assert (Ht : toast (run init events) =
    Some {| toast_message := Js.Str msgUnreachable; toast_type := "error" |})
    by reflexivity.
  split; [exact Ht|].
  exact (proj2 (toasts_are_error_toasts events _ Ht)).
Defined.

(** X4. In an orderly run at most one request is in flight, and one is in
    flight exactly when the view is loading. *)
Theorem orderly_single_flight : forall events : list Event,
  orderly init events = true ->
  let s := run init events in
  (length (inflight s) <= 1)%nat /\
  (inflight s <> [] <-> view s = View.loading).
Proof.
  intros events Ho s.
  destruct (Inv_run events init Inv_init Ho) as (_ & Hin & _ & _).
  destruct (Sound_run events) as (_ & _ & Hl & _). fold s in Hin, Hl.
  destruct Hin as [El|[Hv [fd Hfd]]].
  - rewrite El. split; [cbn; lia|]. split; [congruence|].
    intros Hv. exfalso. apply (Hl Hv). exact El.
  - rewrite Hfd. split; [cbn; lia|]. split; [intros _; exact Hv | discriminate].
Qed.

Lemma orderly_single_flight_witness :
  orderly init (submitted recruiter) = true /\
  (length (inflight (run init (submitted recruiter))) <= 1)%nat.
Proof.
  assert (Ho : orderly init (submitted recruiter) = true) by reflexivity.
  split; [exact Ho|].
  exact (proj1 (orderly_single_flight (submitted recruiter) Ho)).
Defined.

(** X5. While the view is loading, a file drop or pick, the submit
    button, "Back to Roles" and the reset button of the dashboard all leave
    the whole state as it is. *)
Theorem controls_disabled_while_loading :
  forall (events : list Event) (sl : Slot) (f : option File),
  let s := run init events in
  view s = View.loading ->
  dispatch s (FileInput sl f) = s /\
  dispatch s SubmitClick = s /\
  dispatch s BackClick = s /\
  dispatch s ResetClick = s.
Proof.
  intros events sl f s Hv.
  assert (Hr : render s = s) by apply run_rendered.
  assert (Hl : isLoading s = true) by (unfold isLoading; rewrite Hv; reflexivity).
  unfold dispatch, exec, handle, handleSubmit, dashboardShown, onFileInput.
  rewrite Hl, Hv. cbn [View.eqb andb].
  destruct (form s) as [st|] eqn:Hf.
  - rewrite (setForm_same s st Hf).
    assert (Hc : truthy (canSubmit st true) = false).
    { destruct (truthy (canSubmit st true)) eqn:E; [|reflexivity].
      apply canSubmit_truthy in E. destruct E as (_ & _ & E). discriminate. }
    rewrite Hc. cbn [snd]. repeat split; exact Hr.
  - cbn [snd]. repeat split; exact Hr.
Qed.

Lemma controls_disabled_while_loading_witness :
  let s := run init (submitted recruiter) in
  view s = View.loading /\
  dispatch s BackClick = s /\
  dispatch s (FileInput ResumeSlot (Some pdf)) = s.
Proof.
  intros s.
  assert (Hv : view s = View.loading) by reflexivity.
  destruct (controls_disabled_while_loading (submitted recruiter)
              ResumeSlot (Some pdf) Hv) as (H1 & _ & H3 & _).
  repeat split; assumption.
Defined.

(** X6. A submit click with the button enabled enters the loading view
    and sends exactly one request, made of the current role and the two
    stored files (both present); the form, the role, the stored result and
    the toast are kept. *)
Theorem submit_sends_one_request : forall events : list Event,
  let s := run init events in
  canSubmitNow s = true ->
  let s' := dispatch s SubmitClick in
  view s' = View.loading /\
  inflight s' = (inflight s ++ [formDataOf s])%list /\
  fd_resume (formDataOf s) <> None /\
  fd_job_description (formDataOf s) <> None /\
  form s' = form s /\ role s' = role s /\ results s' = results s /\
  toast s' = toast s.
Proof.
  intros events s Hc s'. subst s'.
  unfold canSubmitNow in Hc. unfold dispatch, exec, handle, handleSubmit.
  unfold formDataOf, slotOf.
  destruct (form s) as [st|] eqn:Hf; [|discriminate]. rewrite Hc.
  apply canSubmit_truthy in Hc. destruct Hc as (Hres & Hjd & _).
  cbn. rewrite Hf. repeat split; assumption.
Qed.

Lemma submit_sends_one_request_witness :
  let s := run init [RoleClick recruiter; FileInput ResumeSlot (Some pdf);
                     FileInput JdSlot (Some pdf)] in
  canSubmitNow s = true /\
  inflight (dispatch s SubmitClick) =
    [{| fd_role := Some recruiter; fd_resume := Some pdf;
        fd_job_description := Some pdf |}].
Proof.
  intros s.
  assert (Hc : canSubmitNow s = true) by reflexivity.
  split; [exact Hc|].
  exact (proj1 (proj2 (submit_sends_one_request _ Hc))).
Defined.

(** A request that does not settle in success, with a [detail] React can
    render when it carries one, ends the second half of [handleAnalyze]
    with an error toast [Toast] can render and the upload view. *)
Lemma resume_failure : forall o s,
  succeeds o = false ->
  ReactChild.detailRenders o = true ->
  exists m, Js.truthy m = true /\ ReactChild.valid m = true /\
    handleAnalyze_resume o s = (showToast m "error" ;; setView View.upload) s.
Proof.
  intros o s Hf Hd.
  assert (Hun : exists m, Js.truthy m = true /\ ReactChild.valid m = true /\
            (showToast (Js.Str msgUnreachable) "error" ;; setView View.upload) s
            = (showToast m "error" ;; setView View.upload) s).
  { exists (Js.Str msgUnreachable). repeat split. }
  assert (Hnot : forall r, o = Responded r -> ok r = false ->
            body r <> Parsed Js.Null ->
            exists m, Js.truthy m = true /\ ReactChild.valid m = true /\
              handleAnalyze_resume o s
              = (showToast m "error" ;; setView View.upload) s).
  { intros r -> Hok Hb. eexists. split; [|split; [|apply resume_not_ok; assumption]].
    - apply or_truthy, statusMessage_truthy.
    - cbn in Hd. unfold Js.or.
      destruct (detailField (body r)) as [d|]; [|reflexivity].
      destruct (Js.truthy d); [exact Hd | reflexivity]. }
  destruct o as [|r].
  - rewrite resume_failed by (left; reflexivity). exact Hun.
  - cbn in Hf. destruct (body r) as [|v] eqn:Hb.
    + destruct (ok r) eqn:Hok.
      * rewrite resume_failed by (right; exists r; tauto). exact Hun.
      * apply (Hnot r eq_refl Hok). rewrite Hb. discriminate.
    + destruct v;
        try (apply (Hnot r eq_refl Hf); rewrite Hb; discriminate).
      rewrite resume_failed by (right; exists r; tauto). exact Hun.
Qed.

(** X7. In an orderly run, when the request settles without success in
    the loading view (no response, a status outside 200-299, or an
    unparseable body) and the [detail] it carries, if any, is a value React
    can render, the view is upload again with the same form and files, the
    role is kept and set, the stored result is kept, no request is left in
    flight, the toast is an error toast whose message is truthy and can be
    rendered, and with both slots filled [canSubmit] is truthy again. *)
Theorem failure_returns_to_filled_form :
  forall (events : list Event) (o : FetchOutcome),
  orderly init events = true ->
  let s := run init events in
  view s = View.loading ->
  succeeds o = false ->
  ReactChild.detailRenders o = true ->
  let s' := dispatch s (FetchSettled o) in
  view s' = View.upload /\
  form s' = form s /\
  slotOf ResumeSlot s' = slotOf ResumeSlot s /\
  slotOf JdSlot s' = slotOf JdSlot s /\
  role s' = role s /\ role s' <> None /\
  results s' = results s /\
  inflight s' = [] /\
  (exists m, Js.truthy m = true /\ ReactChild.valid m = true /\
     toast s' = Some {| toast_message := m; toast_type := "error" |}) /\
  (slotOf ResumeSlot s <> None -> slotOf JdSlot s <> None ->
     canSubmitNow s' = true).
Proof.
  intros events o Ho s Hv Hfail Hdet s'.
  destruct (Sound_run events) as (Hr & _ & Hl & _). fold s in Hr, Hl.
  destruct (Inv_run events init Inv_init Ho) as (_ & Hin & Hrole & _).
  fold s in Hin, Hrole.
  destruct (rendered_form_some s Hr (or_intror Hv)) as [st Hf].
  destruct Hin as [Hnil|[_ [fd Hfd]]]; [exfalso; exact (Hl Hv Hnil)|].
  assert (Hs' : exists m, Js.truthy m = true /\ ReactChild.valid m = true /\
            view s' = View.upload /\ form s' = Some st /\ role s' = role s /\
            results s' = results s /\ inflight s' = [] /\
            toast s' = Some {| toast_message := m; toast_type := "error" |}).
  { subst s'. unfold dispatch, exec, handle. rewrite Hfd.
    unfold bind. cbn [setInflight modify].
    match goal with |- context [handleAnalyze_resume o ?s0] =>
      destruct (resume_failure o s0 Hfail Hdet) as (m & Hm & Hval & ->)
    end.
    exists m. cbn. rewrite Hf. cbn. repeat split; assumption. }
  destruct Hs' as (m & Hm & Hval & Hv' & Hf' & Hrole' & Hres & Hin' & Ht).
  assert (Hslots : forall sl, slotOf sl s' = slotOf sl s)
    by (intros sl; unfold slotOf; rewrite Hf', Hf; reflexivity).
  repeat split; try assumption; try apply Hslots; try congruence.
  - rewrite Hrole'. apply Hrole. rewrite Hv. discriminate.
  - exists m. repeat split; assumption.
  - intros H1 H2. unfold canSubmitNow. rewrite Hf'.
    apply canSubmit_truthy. unfold slotOf in H1, H2. rewrite Hf in H1, H2.
    cbn in H1, H2. repeat split; try assumption.
    unfold isLoading. rewrite Hv'. reflexivity.
Qed.

Lemma failure_returns_to_filled_form_witness :
  let s := run init (submitted applier) in
  let o := Responded {| status := 503; body := Unparseable |} in
  (orderly init (submitted applier) = true /\ view s = View.loading /\
   succeeds o = false /\ ReactChild.detailRenders o = true) /\
  view (dispatch s (FetchSettled o)) = View.upload /\
  canSubmitNow (dispatch s (FetchSettled o)) = true.
Proof.
  intros s o.
  assert (Ho : orderly init (submitted applier) = true) by reflexivity.
  assert (Hv : view s = View.loading) by reflexivity.
  assert (Hf : succeeds o = false) by reflexivity.
  assert (Hd : ReactChild.detailRenders o = true) by reflexivity.
  destruct (failure_returns_to_filled_form (submitted applier) o Ho Hv Hf Hd)
    as (H1 & _ & _ & _ & _ & _ & _ & _ & _ & H10).
  split; [repeat split; assumption|]. split; [exact H1|].
  apply H10; discriminate.
Defined.

(** A [detail] that is an object, as in the validation errors of the
    service, is stored as the message all the same; [Toast] cannot render
    it. *)
Example object_detail_is_not_renderable :
  let o := Responded {| status := 422;
                        body := Parsed (Js.Obj [("detail",
                                  Js.Arr [Js.Obj [("msg", Js.Str "field required")]])]) |} in
  succeeds o = false /\ ReactChild.detailRenders o = false /\
  option_map (fun t => ReactChild.valid (toast_message t))
    (toast (dispatch (run init (submitted applier)) (FetchSettled o)))
    = Some false.
Proof. repeat split. Qed.

(** X8. In any state with a request in flight, when the oldest request
    settles with a 2xx status and a parseable body, the view becomes
    results and the parsed body, whatever it is, becomes the stored result;
    the role and the toast are kept, and that request is no longer in
    flight. *)
Theorem success_stores_body :
  forall (s : State) (r : Response) (data : Js.value),
  inflight s <> [] ->
  ok r = true ->
  body r = Parsed data ->
  let s' := dispatch s (FetchSettled (Responded r)) in
  view s' = View.results /\ results s' = data /\
  role s' = role s /\ toast s' = toast s /\
  inflight s' = tl (inflight s).
Proof.
  intros s r data Hin Hok Hb s'. subst s'.
  unfold dispatch, exec, handle.
  destruct (inflight s) as [|fd rest] eqn:El; [congruence|].
  unfold bind. cbn [setInflight modify].
  rewrite (resume_ok _ r data Hok Hb). cbn. repeat split.
Qed.

Lemma success_stores_body_witness :
  let s := run init (submitted recruiter) in
  let r := {| status := 200; body := Parsed report |} in
  (inflight s <> [] /\ ok r = true) /\
  results (dispatch s (FetchSettled (Responded r))) = report /\
  inflight (dispatch s (FetchSettled (Responded r))) = [].
Proof.
  intros s r.
  assert (Hin : inflight s <> []) by discriminate.
  destruct (success_stores_body s r report Hin eq_refl eq_refl)
    as (_ & H2 & _ & _ & H5).
  split; [split; [exact Hin | reflexivity]|]. split; [exact H2 | exact H5].
Defined.

(** X9. A role click in any state gives the upload view with that role
    and drops nothing: the stored result, the requests in flight and the
    toast are kept, and an upload form that is mounted keeps what it
    holds. *)
Theorem role_click_keeps_work : forall (s : State) (r : Role),
  let s' := dispatch s (RoleClick r) in
  view s' = View.upload /\ role s' = Some r /\
  results s' = results s /\ inflight s' = inflight s /\ toast s' = toast s /\
  (forall st, form s = Some st -> form s' = Some st).
Proof.
  intros s r s'. subst s'. unfold dispatch, exec, handle. cbn.
  destruct (form s) as [st0|]; do 5 (split; [reflexivity|]);
    intros st H; [exact H | discriminate].
Qed.

Lemma role_click_keeps_work_witness :
  let s := run init [RoleClick recruiter; FileInput ResumeSlot (Some pdf)] in
  slotOf ResumeSlot s = Some pdf /\
  role (dispatch s (RoleClick applier)) = Some applier /\
  slotOf ResumeSlot (dispatch s (RoleClick applier)) = Some pdf.
Proof.
  intros s.
  destruct (role_click_keeps_work s applier) as (_ & H2 & _ & _ & _ & H6).
  split; [reflexivity|]. split; [exact H2|].
  unfold slotOf. rewrite (H6 _ eq_refl). reflexivity.
Defined.

Import UploadFormView.



(** Out of order the form can be shown with no role: a role click while
    loading, "Back to Roles", then a failed response. *)
Example form_without_role :
  let s := run init
    (submitted recruiter ++
     [RoleClick applier; BackClick; FetchSettled NetworkError])%list in
  view s = View.upload /\ role s = None /\ headerOf s = Some (Throw TypeError).
Proof. repeat split. Qed.

(** X15. Every toast the application ever holds is rendered with the
    error style of [Toast]. *)
Theorem toasts_use_error_style : forall (events : list Event) (t : Toast),
  toast (run init events) = Some t ->
  ToastView.styleFor (toast_type t) = Some ToastView.STYLES_error.
Proof.
  intros events t Ht.
  destruct (Sound_run events) as (_ & _ & _ & He). rewrite Ht in He.
  destruct He as [-> _]. reflexivity.
Qed.

Lemma toasts_use_error_style_witness :
  let events :=
    (submitted applier ++
     [FetchSettled (Responded {| status := 415; body := Unparseable |})])%list in
  toast (run init events) =
    Some {| toast_message := Js.Str msg415; toast_type := "error" |} /\
  option_map ToastView.title (ToastView.styleFor "error") = Some "Error".
Proof.
  intros events.
  assert (Ht : toast (run init events) =
    Some {| toast_message := Js.Str msg415; toast_type := "error" |})
    by reflexivity.
  split; [exact Ht|].
  pose proof (toasts_use_error_style events _ Ht) as H.
  change (ToastView.styleFor "error" = Some ToastView.STYLES_error) in H.
  rewrite H. reflexivity.
Defined.

(** * Further properties of the upload form *)

(** X11. The size banner and its timers: with no other timer pending, the
    timer of a banner clears it; when a second banner is raised before the
    first timer fired, that first timer clears the second banner while one
    timer is still pending; and a banner with its timer never touches a
    slot. *)
Theorem size_banner_timers : forall (m1 m2 : string) (st : FormState),
  (sizeTimers st = 0%nat ->
     sizeError (sizeTimerFired (showSizeToast m1 st)) = None /\
     sizeTimers (sizeTimerFired (showSizeToast m1 st)) = 0%nat) /\
  (let shown := showSizeToast m2 (showSizeToast m1 st) in
   sizeError shown = Some m2 /\
   sizeError (sizeTimerFired shown) = None /\
   sizeTimers (sizeTimerFired shown) = S (sizeTimers st)) /\
  (forall sl, slot sl (sizeTimerFired (showSizeToast m1 st)) = slot sl st).
Proof.
  intros m1 m2 [r j e n]. split; [|split].
  - cbn. intros ->. split; reflexivity.
  - cbn. repeat split.
  - intros []; reflexivity.
Qed.

Lemma size_banner_timers_witness :
  sizeTimers initial = 0%nat /\
  sizeError (sizeTimerFired (showSizeToast tooLargeMessage initial)) = None.
Proof.
  split; [reflexivity|].
  exact (proj1 (proj1 (size_banner_timers tooLargeMessage tooLargeMessage initial)
                  eq_refl)).
Defined.

(** X12. For files the gate accepts: a second file on the same slot
    replaces the first, files for the two slots can be chosen in either
    order with the same result, and once both are chosen [canSubmit] is
    [true] when not loading. *)
Theorem accepted_files_compose :
  forall (sl : Slot) (f g : File) (st : FormState),
  accepted f -> accepted g ->
  dropzoneHandleFile sl (Some g) (dropzoneHandleFile sl (Some f) st)
    = dropzoneHandleFile sl (Some g) st /\
  dropzoneHandleFile (other sl) (Some g) (dropzoneHandleFile sl (Some f) st)
    = dropzoneHandleFile sl (Some f) (dropzoneHandleFile (other sl) (Some g) st) /\
  canSubmit (dropzoneHandleFile (other sl) (Some g)
               (dropzoneHandleFile sl (Some f) st)) false = OBool true.
Proof.
  intros sl f g [r j e n] [Hf1 Hf2] [Hg1 Hg2].
  rewrite !handleFile_pdf_small by assumption.
  destruct sl; cbn; repeat split.
Qed.

Lemma accepted_files_compose_witness :
  accepted pdf /\
  canSubmit (dropzoneHandleFile JdSlot (Some pdf)
               (dropzoneHandleFile ResumeSlot (Some pdf) initial)) false
    = OBool true.
Proof.
  assert (Ha : accepted pdf) by (split; [reflexivity | cbn; lia]).
  split; [exact Ha|].
  exact (proj2 (proj2 (accepted_files_compose ResumeSlot pdf pdf initial Ha Ha))).
Defined.

(** X13. After a drop the zone is not in the dragging state, so it has
    the active style exactly when its slot holds a file; a drop on a
    disabled zone leaves the form state alone; and drag-over and
    drag-leave events, however many, never change the form state. *)
Theorem drop_settles_highlight :
  forall (m : Meta) (sl : Slot) (disabled : bool) (f : option File) (z : Zone),
  let z' := onDrop sl disabled f z in
  fst z' = false /\
  (zoneClass m sl z' = if hasFile sl (snd z') then meta_active m
                       else meta_dropzone m) /\
  (disabled = true -> snd z' = snd z) /\
  (forall drags : list DragEvent,
     snd (fold_left drag drags z) = snd z).
Proof.
  intros m sl disabled f z z'. subst z'. split; [|split; [|split]].
  - unfold onDrop. destruct disabled; reflexivity.
  - unfold zoneClass, onDrop. destruct disabled; reflexivity.
  - intros ->. reflexivity.
  - intros drags. revert z. induction drags as [|e drags IH]; intros z.
    + reflexivity.
    + cbn [fold_left]. rewrite IH. destruct e as [[]|]; reflexivity.
Qed.

Lemma drop_settles_highlight_witness :
  let png := {| file_name := "cv.png"; file_type := "image/png";
                file_size := 10 |} in
  zoneClass (ROLE_META applier) ResumeSlot
    (onDrop ResumeSlot false (Some png)
       (onDragOver false (false, initial)))
    = meta_dropzone (ROLE_META applier) /\
  snd (onDrop ResumeSlot true (Some pdf) (true, initial)) = initial.
Proof.
  intros png. split.
  - destruct (drop_settles_highlight (ROLE_META applier) ResumeSlot false
                (Some png) (onDragOver false (false, initial)))
      as (_ & H & _).
    rewrite H. reflexivity.
  - destruct (drop_settles_highlight (ROLE_META applier) ResumeSlot true
                (Some pdf) (true, initial))
      as (_ & _ & H & _).
    exact (H eq_refl).
Defined.

(** * The theme *)

Lemma initIsDark_syncEffect : forall (d systemDark : bool) (b : Theme.Browser),
  Theme.initIsDark (Theme.reopen systemDark (Theme.syncEffect d b)) = d.
Proof. intros [] systemDark b; reflexivity. Qed.

Lemma toggles_synced : forall n t,
  Theme.browser t = Theme.syncEffect (Theme.isDark t) (Theme.browser t) ->
  Theme.browser (Theme.toggles n t)
    = Theme.syncEffect (Theme.isDark (Theme.toggles n t))
                       (Theme.browser (Theme.toggles n t)).
Proof.
  induction n as [|n IH]; intros t H.
  - exact H.
  - cbn [Theme.toggles]. apply IH. reflexivity.
Qed.

Lemma toggles_isDark : forall n t,
  Theme.isDark (Theme.toggles n t) = xorb (Nat.odd n) (Theme.isDark t).
Proof.
  induction n as [|n IH]; intros t.
  - reflexivity.
  - cbn [Theme.toggles]. rewrite IH. cbn [Theme.toggle Theme.isDark].
    rewrite Nat.odd_succ, <- Nat.negb_odd.
    destruct (Nat.odd n), (Theme.isDark t); reflexivity.
Qed.

(** X14. After mounting in any browser and any number of toggles, the
    stored theme is "dark" or "light" according to [isDark], the class on
    [<html>] agrees with [isDark], a later session starts with the same
    [isDark] whatever the preference of the system is then, and [isDark]
    is the initial value flipped once per toggle. *)
Theorem theme_survives_reload :
  forall (b : Theme.Browser) (n : nat) (systemDark : bool),
  let t := Theme.toggles n (Theme.mount b) in
  Theme.saved (Theme.browser t)
    = Some (if Theme.isDark t then "dark" else "light") /\
  Theme.htmlDark (Theme.browser t) = Theme.isDark t /\
  Theme.isDark (Theme.mount (Theme.reopen systemDark (Theme.browser t)))
    = Theme.isDark t /\
  Theme.isDark t = xorb (Nat.odd n) (Theme.initIsDark b).
Proof.
  intros b n systemDark t.
  assert (Hs : Theme.browser t
               = Theme.syncEffect (Theme.isDark t) (Theme.browser t)).
  { apply toggles_synced. reflexivity. }
  split; [rewrite Hs; reflexivity|].
  split; [rewrite Hs; reflexivity|].
  split.
  - cbn [Theme.mount Theme.isDark]. rewrite Hs. apply initIsDark_syncEffect.
  - subst t. rewrite toggles_isDark. reflexivity.
Qed.

Local Open Scope Q_scope.

(** * Further properties of the results dashboard *)

Import Dashboard.

(** X16. The role-specific card of the dashboard: the hire summary card
    is only ever shown to a recruiter, with a truthy [hire_summary]; the
    improvements card only to a non-recruiter (a job seeker or no role),
    with a truthy [basic_improvements]; and no card is shown exactly when
    the member for the role is absent or falsy. *)
Theorem role_section_matches_role :
  forall (role : option Role) (results : Js.value),
  match roleSection role results with
  | HireSummaryCard v =>
      role = Some recruiter /\ v = member "hire_summary" results /\
      truthyMember v = true
  | ImprovementsCard v =>
      role <> Some recruiter /\ v = member "basic_improvements" results /\
      truthyMember v = true
  | NoCard =>
      (role = Some recruiter ->
         truthyMember (member "hire_summary" results) = false) /\
      (role <> Some recruiter ->
         truthyMember (member "basic_improvements" results) = false)
  end.
Proof.
  intros role results. unfold roleSection.
  destruct role as [[|]|]; cbn [isRecruiter andb negb].
  - destruct (truthyMember (member "hire_summary" results)) eqn:E.
    + repeat split. exact E.
    + split; [reflexivity | congruence].
  - destruct (truthyMember (member "basic_improvements" results)) eqn:E.
    + repeat split; [discriminate | exact E].
    + split; [discriminate | reflexivity].
  - destruct (truthyMember (member "basic_improvements" results)) eqn:E.
    + repeat split; [discriminate | exact E].
    + split; [discriminate | reflexivity].
Qed.

Lemma role_section_matches_role_witness :
  roleSection (Some recruiter) report
    = HireSummaryCard (Some (Js.Str "Strong fit")) /\
  (Some applier <> Some recruiter /\
   truthyMember (member "basic_improvements" report) = false).
Proof.
  split; [reflexivity|].
  assert (Hne : Some applier <> Some recruiter) by discriminate.
  split; [exact Hne|].
  pose proof (role_section_matches_role (Some applier) report) as H.
  change (roleSection (Some applier) report) with NoCard in H.
  exact (proj2 H Hne).
Defined.

Lemma scoreColor_cases : forall pct : Q,
  (75 <= pct /\ bandOf (scoreColor pct) = Some Strong) \/
  (50 <= pct /\ pct < 75 /\ bandOf (scoreColor pct) = Some Moderate) \/
  (pct < 50 /\ bandOf (scoreColor pct) = Some Weak).
Proof.
  intros pct. unfold scoreColor.
  destruct (Qle_bool 75 pct) eqn:E75.
  - left. apply Qle_bool_iff in E75. split; [exact E75 | reflexivity].
  - right. assert (H75 : pct < 75).
    { apply Qnot_le_lt. intros H. apply Qle_bool_iff in H. congruence. }
    destruct (Qle_bool 50 pct) eqn:E50.
    + left. apply Qle_bool_iff in E50. repeat split; assumption.
    + right. split; [|reflexivity].
      apply Qnot_le_lt. intros H. apply Qle_bool_iff in H. congruence.
Qed.

(** X17. A higher score never gets a lower band, every score gets one of
    the three bands, and equal rationals get the same colour record. *)
Theorem band_never_drops_with_score : forall p q : Q,
  p <= q ->
  (rank (bandOf (scoreColor p)) <= rank (bandOf (scoreColor q)))%nat /\
  (1 <= rank (bandOf (scoreColor p)))%nat /\
  (p == q -> scoreColor p = scoreColor q).
Proof.
  intros p q Hpq.
  assert (Hmono : (rank (bandOf (scoreColor p))
                   <= rank (bandOf (scoreColor q)))%nat).
  { destruct (scoreColor_cases p) as [[H1 ->]|[(H1 & H2 & ->)|[H1 ->]]];
    destruct (scoreColor_cases q) as [[H3 ->]|[(H3 & H4 & ->)|[H3 ->]]];
    cbn; try lia; exfalso; lra. }
  split; [exact Hmono|]. split.
  - destruct (scoreColor_cases p) as [[_ ->]|[(_ & _ & ->)|[_ ->]]]; cbn; lia.
  - intros Heq. unfold scoreColor.
    assert (E75 : Qle_bool 75 p = Qle_bool 75 q).
    { destruct (Qle_bool 75 p) eqn:E1, (Qle_bool 75 q) eqn:E2; try reflexivity.
      - apply Qle_bool_iff in E1. rewrite Heq in E1.
        apply Qle_bool_iff in E1. congruence.
      - apply Qle_bool_iff in E2. rewrite <- Heq in E2.
        apply Qle_bool_iff in E2. congruence. }
    assert (E50 : Qle_bool 50 p = Qle_bool 50 q).
    { destruct (Qle_bool 50 p) eqn:E1, (Qle_bool 50 q) eqn:E2; try reflexivity.
      - apply Qle_bool_iff in E1. rewrite Heq in E1.
        apply Qle_bool_iff in E1. congruence.
      - apply Qle_bool_iff in E2. rewrite <- Heq in E2.
        apply Qle_bool_iff in E2. congruence. }
    rewrite E75, E50. reflexivity.
Qed.

Lemma band_never_drops_with_score_witness :
  (49 <= 82 /\
   (rank (bandOf (scoreColor 49)) <= rank (bandOf (scoreColor 82)))%nat) /\
  ((150 # 2) <= 75 /\ (150 # 2) == 75 /\
   scoreColor (150 # 2) = scoreColor 75).
Proof.
  assert (H : 49 <= 82) by discriminate.
  assert (H' : (150 # 2) <= 75) by discriminate.
  assert (E : (150 # 2) == 75) by reflexivity.
  split.
  - split; [exact H|].
    exact (proj1 (band_never_drops_with_score 49 82 H)).
  - split; [exact H'|]. split; [exact E|].
    exact (proj2 (proj2 (band_never_drops_with_score (150 # 2) 75 H')) E).
Defined.

(** * Further properties of the progress animation *)

Lemma ascending_lower_bound : forall l x,
  ascending (x :: l) -> Forall (fun y => x <= y) l.
Proof.
  induction l as [|y l IH]; intros x H.
  - constructor.
  - destruct H as [Hxy Hl]. constructor; [exact Hxy|].
    assert (Hx : ascending (x :: l)).
    { destruct l as [|z l]; [exact I|]. destruct Hl as [Hyz Hl].
      split; [apply (Qle_trans _ y); assumption | exact Hl]. }
    apply IH. exact Hx.
Qed.

Lemma value_bounds : forall score t,
  0 <= score -> 0 <= t -> t <= 1 ->
  0 <= value score t /\ value score t <= score.
Proof.
  intros score t Hs H0 H1. unfold value.
  assert (Ha : (1 - t) ^ 3 <= 1 ^ 3) by (apply cube_mono; lra).
  assert (Hb : 0 ^ 3 <= (1 - t) ^ 3) by (apply cube_mono; lra).
  assert (E1 : 1 ^ 3 == 1) by reflexivity.
  assert (E0 : 0 ^ 3 == 0) by reflexivity.
  rewrite E1 in Ha. rewrite E0 in Hb.
  assert (He0 : 0 <= 1 - (1 - t) ^ 3) by lra.
  assert (He1 : 1 - (1 - t) ^ 3 <= 1) by lra.
  split.
  - apply Qmult_le_0_compat; assumption.
  - rewrite <- (Qmult_1_r score) at 2.
    rewrite !(Qmult_comm score). apply Qmult_le_compat_r; assumption.
Qed.

Lemma samples_times_nonneg : forall score frames,
  ascending frames ->
  Forall (fun tv => 0 <= fst tv) (samples score mounted frames).
Proof.
  intros score frames Hasc.
  assert (Ht : ascending (0 :: map fst (samples score mounted frames))).
  { destruct frames as [|f0 rest]; [exact I|].
    apply (samples_times_ascending score (f0 :: rest) mounted f0 0).
    - intros ts _. rewrite progress_mounted. apply Qle_refl.
    - split; [apply Qle_refl | exact Hasc]. }
  apply ascending_lower_bound in Ht.
  rewrite Forall_map in Ht. exact Ht.
Qed.

(** X18. For a target that is not negative and frames in time order,
    every animated value lies between 0 and the target. *)
Theorem samples_stay_within_target : forall (score : Q) (frames : list Q),
  0 <= score ->
  ascending frames ->
  Forall (fun tv => 0 <= snd tv /\ snd tv <= score)
         (samples score mounted frames).
Proof.
  intros score frames Hs Hasc.
  pose proof (samples_times_nonneg score frames Hasc) as H0.
  pose proof (samples_on_curve score frames mounted) as Hc.
  rewrite Forall_forall in *. intros tv Hin.
  destruct (Hc tv Hin) as [Hv H1]. specialize (H0 tv Hin).
  rewrite Hv. apply value_bounds; assumption.
Qed.

Lemma samples_stay_within_target_witness :
  (0 <= 82 /\ ascending [16; 566; 1116]) /\
  Forall (fun tv => 0 <= snd tv /\ snd tv <= 82)
         (samples 82 mounted [16; 566; 1116]).
Proof.
  assert (Hs : 0 <= 82) by discriminate.
  assert (Ha : ascending [16; 566; 1116]).
  { cbn. repeat split; discriminate. }
  split; [split; assumption|].
  exact (samples_stay_within_target 82 [16; 566; 1116] Hs Ha).
Defined.

Lemma circumference_pos : forall PI, 0 < PI -> 0 < circumference PI.
Proof.
  intros PI H. unfold circumference, radius, size, strokeWidth.
  assert (E : 2 * PI * ((140 - 10) / 2) == 130 * PI) by field.
  rewrite E. lra.
Qed.

Lemma offset_affine : forall PI a,
  offset PI a == circumference PI * (1 - a / 100).
Proof. intros PI a. unfold offset. field. Qed.

Lemma offset_antitone : forall PI a b,
  0 < PI -> a <= b -> offset PI b <= offset PI a.
Proof.
  intros PI a b HPI Hab. rewrite !offset_affine.
  pose proof (circumference_pos PI HPI) as Hc.
  rewrite !(Qmult_comm (circumference PI)).
  apply Qmult_le_compat_r; [|lra].
  assert (a / 100 <= b / 100).
  { unfold Qdiv. apply Qmult_le_compat_r; [exact Hab | discriminate]. }
  lra.
Qed.

Lemma offsets_descending : forall PI l x,
  0 < PI -> ascending (x :: l) ->
  descending (offset PI x :: map (offset PI) l).
Proof.
  intros PI l. induction l as [|y l IH]; intros x HPI H.
  - exact I.
  - destruct H as [Hxy Hl]. cbn [map]. split.
    + apply offset_antitone; assumption.
    + apply IH; assumption.
Qed.

(** X19. For a target between 0 and 100 and frames in time order, the
    dash offset of the arc starts at the full circumference, stays between
    0 and the circumference at every sample, and never goes up. *)
Theorem arc_fills_without_overshoot :
  forall (PI score : Q) (frames : list Q),
  0 < PI ->
  0 <= score -> score <= 100 ->
  ascending frames ->
  let values := map snd (samples score mounted frames) in
  offset PI (animated mounted) == circumference PI /\
  Forall (fun v => 0 <= offset PI v /\ offset PI v <= circumference PI) values /\
  descending (offset PI (animated mounted) :: map (offset PI) values).
Proof.
  intros PI score frames HPI Hs0 Hs1 Hasc values. subst values.
  pose proof (circumference_pos PI HPI) as Hc.
  split; [|split].
  - rewrite offset_affine. cbn [animated mounted]. field.
  - rewrite Forall_map.
    pose proof (samples_stay_within_target score frames Hs0 Hasc) as Hb.
    rewrite Forall_forall in *. intros tv Hin.
    destruct (Hb tv Hin) as [Hv0 Hv1].
    assert (Hv100 : snd tv <= 100) by lra.
    split.
    + apply (Qle_trans _ (offset PI 100)).
      * rewrite offset_affine. apply Qle_lteq. right. field.
      * apply offset_antitone; assumption.
    + apply (Qle_trans _ (offset PI 0)).
      * apply offset_antitone; assumption.
      * rewrite offset_affine. apply Qle_lteq. right. field.
  - apply offsets_descending; [exact HPI|].
    apply (values_ascending score _ 0).
    + exact Hs0.
    + unfold value. cbn. ring.
    + apply samples_on_curve.
    + pose proof (samples_times_nonneg score frames Hasc) as H0.
      destruct frames as [|f0 rest]; [exact I|].
      apply (samples_times_ascending score (f0 :: rest) mounted f0 0).
      * intros ts _. rewrite progress_mounted. apply Qle_refl.
      * split; [apply Qle_refl | exact Hasc].
Qed.

Lemma arc_fills_without_overshoot_witness :
  (0 < 355 # 113 /\ 0 <= 82 /\ 82 <= 100 /\ ascending [16; 566; 1116]) /\
  descending
    (offset (355 # 113) (animated mounted)
       :: map (offset (355 # 113))
              (map snd (samples 82 mounted [16; 566; 1116]))).
Proof.
  assert (HPI : 0 < 355 # 113) by reflexivity.
  assert (H0 : 0 <= 82) by discriminate.
  assert (H1 : 82 <= 100) by discriminate.
  assert (Ha : ascending [16; 566; 1116]).
  { cbn. repeat split; discriminate. }
  split; [repeat split; assumption|].
  exact (proj2 (proj2 (arc_fills_without_overshoot (355 # 113) 82
                         [16; 566; 1116] HPI H0 H1 Ha))).
Defined.

Lemma startAt_after_zero : forall score t0 ts,
  t0 == 0 -> startAt (step score mounted t0) ts = startAt mounted ts.
Proof.
  intros score t0 ts H0. unfold startAt at 1. cbn [start step].
  unfold startAt at 1. cbn [start mounted].
  apply Qeq_bool_iff in H0. rewrite H0. reflexivity.
Qed.

Lemma progress_after_zero : forall score t0 ts,
  t0 == 0 -> progress (step score mounted t0) ts = progress mounted ts.
Proof.
  intros score t0 ts H0. unfold progress.
  rewrite (startAt_after_zero score t0 ts H0). reflexivity.
Qed.

Lemma step_after_zero : forall score t0 ts,
  t0 == 0 -> step score (step score mounted t0) ts = step score mounted ts.
Proof.
  intros score t0 ts H0. unfold step at 1.
  rewrite (startAt_after_zero score t0 ts H0).
  rewrite (progress_after_zero score t0 ts H0). reflexivity.
Qed.

Lemma first_step_scheduled : forall score t0,
  scheduled (step score mounted t0) = true.
Proof.
  intros score t0. cbn [scheduled step]. unfold Qltb. apply negb_true_iff.
  destruct (Qle_bool 1 (progress mounted t0)) eqn:E; [|reflexivity].
  apply Qle_bool_iff in E. rewrite progress_mounted in E. lra.
Qed.

(** X20. A first frame whose timestamp is 0 does not start the clock:
    [start] is taken again at the next frame, whose normalized time is 0,
    and from there the animation runs as if it began with that frame. *)
Theorem zero_timestamp_restarts_clock :
  forall (score t0 ts : Q) (rest : list Q),
  t0 == 0 ->
  animate score mounted (t0 :: ts :: rest) = animate score mounted (ts :: rest) /\
  samples score mounted (t0 :: ts :: rest)
    = (progress mounted t0, animated (step score mounted t0))
        :: samples score mounted (ts :: rest) /\
  progress (step score mounted t0) ts == 0.
Proof.
  intros score t0 ts rest H0.
  pose proof (first_step_scheduled score t0) as Hsch.
  pose proof (step_after_zero score t0 ts H0) as Hstep.
  pose proof (progress_after_zero score t0 ts H0) as Hp.
  split; [|split].
  - cbn [animate scheduled mounted]. rewrite Hsch, Hstep. reflexivity.
  - cbn [samples scheduled mounted]. rewrite Hsch, Hstep, Hp. reflexivity.
  - rewrite Hp. apply progress_mounted.
Qed.

Lemma zero_timestamp_restarts_clock_witness :
  0 == 0 /\
  animate 82 mounted [0; 1100; 2200] = animate 82 mounted [1100; 2200].
Proof.
  assert (H : 0 == 0) by reflexivity.
  split; [exact H|].
  exact (proj1 (zero_timestamp_restarts_clock 82 0 1100 [2200] H)).
Defined.

(** * The progress animation against the frame clock *)

Import FrameClock.

Lemma Qabs_self_diff : forall x y : Q, x == y -> Qabs (x - y) == 0.
Proof.
  intros x y H. assert (E : x - y == 0) by (rewrite H; ring).
  rewrite E. reflexivity.
Qed.

Lemma tol_nonneg : 0 <= tol.
Proof. discriminate. Qed.

Lemma tol_scaled_nonneg : forall score, 0 <= tol * (Qabs score + 1).
Proof.
  intros score. apply Qmult_le_0_compat; [apply tol_nonneg|].
  pose proof (Qabs_nonneg score). lra.
Qed.

Section FixedStart.

Variables score f0 : Q.
Hypothesis f0_nonzero : ~ f0 == 0.

Lemma startAt_fixed : forall a ts, start a = Some f0 -> startAt a ts = f0.
Proof.
  intros a ts Hs. unfold startAt. rewrite Hs.
  destruct (Qeq_bool f0 0) eqn:E; [|reflexivity].
  apply Qeq_bool_iff in E. contradiction.
Qed.

Lemma progress_fixed : forall a ts,
  start a = Some f0 -> progress a ts = normalized f0 ts.
Proof.
  intros a ts Hs. unfold progress, normalized. rewrite (startAt_fixed a ts Hs).
  reflexivity.
Qed.

(** With the start fixed at [f0] the samples follow the frames. *)
Lemma samples_track : forall frames a,
  start a = Some f0 -> scheduled a = true ->
  tracks score f0 frames (samples score a frames).
Proof.
  induction frames as [|ts rest IH]; intros a Hs Hsch.
  - exact I.
  - cbn [samples]. rewrite Hsch. cbn [tracks].
    rewrite (progress_fixed a ts Hs).
    split; [|split; [|split]].
    + rewrite Qabs_self_diff by reflexivity. apply tol_nonneg.
    + rewrite Qabs_self_diff.
      * apply tol_scaled_nonneg.
      * cbn [animated step]. rewrite (progress_fixed a ts Hs).
        unfold value, eased. ring.
    + intros Hdone.
      assert (H1 : normalized f0 ts == 1).
      { apply Qle_antisym; [apply Q.le_min_r|].
        unfold normalized. apply Q.min_glb; [|apply Qle_refl].
        apply div_duration_one. exact Hdone. }
      split; [exact H1|].
      cbn [animated step]. rewrite (progress_fixed a ts Hs).
      apply eased_at_one; [rewrite H1; apply Qle_refl | apply Q.le_min_r].
    + destruct (Qle_bool 1 (normalized f0 ts)) eqn:E.
      * apply (stopped score). cbn [scheduled step].
        rewrite (progress_fixed a ts Hs). unfold Qltb. rewrite E. reflexivity.
      * apply IH.
        -- cbn [start step]. rewrite (startAt_fixed a ts Hs). reflexivity.
        -- cbn [scheduled step]. rewrite (progress_fixed a ts Hs).
           unfold Qltb. rewrite E. reflexivity.
Qed.

End FixedStart.

(** C9, amended. With the fixed duration of 1100 ms, frames that come in
    time order and a first frame at a non-zero timestamp [f0]: the animated
    value starts at 0 and the first sample is at normalized time 0 with
    value 0; every frame is sampled in turn for as long as the last sample
    was below normalized time 1 and none after; the sample of a frame at
    [timestamp] is at normalized time [min((timestamp - f0) / 1100, 1)]
    and has the value [target * (1 - (1 - t)^3)] there, both up to the
    rounding of the floating-point operations, and a frame 1100 ms or more
    after [f0] gives normalized time 1 and the target exactly; the
    normalized times never go down; for a target that is not negative the
    values never go down; a sample at normalized time 1 has the target as
    its value and is the last one; and once such a frame has come no
    callback is requested any more and the value is the target. *)
Theorem animation_tracks_frame_clock :
  forall (score f0 : Q) (rest : list Q),
  ~ f0 == 0 ->
  ascending (f0 :: rest) ->
  let out := samples score mounted (f0 :: rest) in
  animated mounted == 0 /\
  (exists t0 v0 more, out = (t0, v0) :: more /\ t0 == 0 /\ v0 == 0) /\
  tracks score f0 (f0 :: rest) out /\
  ascending (0 :: map fst out) /\
  (0 <= score -> ascending (animated mounted :: map snd out)) /\
  (forall pre t v post,
     out = (pre ++ (t, v) :: post)%list -> 1 <= t -> v == score /\ post = []) /\
  (forall ts, In ts rest -> f0 + 1100 <= ts ->
     scheduled (animate score mounted (f0 :: rest)) = false /\
     animated (animate score mounted (f0 :: rest)) == score).
Proof.
  intros score f0 rest Hf0 Hasc out.
  assert (Htimes : ascending (0 :: map fst out)).
  { apply (samples_times_ascending score (f0 :: rest) mounted f0 0).
    - intros ts _. rewrite progress_mounted. apply Qle_refl.
    - split; [apply Qle_refl | exact Hasc]. }
  split; [reflexivity|]. split; [|split; [|split; [|split; [|split]]]].
  - subst out. cbn [samples scheduled mounted].
    eexists _, _, _. split; [reflexivity|]. split.
    + apply progress_mounted.
    + cbn [animated step]. unfold eased. rewrite progress_mounted.
      setoid_replace ((1 - 0) ^ 3) with 1 by reflexivity. ring.
  - subst out. cbn [samples scheduled mounted tracks].
    assert (Hp : progress mounted f0 = normalized f0 f0) by reflexivity.
    rewrite Hp.
    assert (H0 : normalized f0 f0 == 0) by (rewrite <- Hp; apply progress_mounted).
    split; [|split; [|split]].
    + rewrite Qabs_self_diff by reflexivity. apply tol_nonneg.
    + rewrite Qabs_self_diff; [apply tol_scaled_nonneg|].
      cbn [animated step]. rewrite Hp. unfold value, eased. ring.
    + intros Hdone. exfalso. lra.
    + destruct (Qle_bool 1 (normalized f0 f0)) eqn:E.
      * apply Qle_bool_iff in E. rewrite H0 in E. exfalso. lra.
      * apply (samples_track score f0 Hf0).
        -- reflexivity.
        -- apply first_step_scheduled.
  - exact Htimes.
  - intros Hs. apply (values_ascending score _ 0).
    + exact Hs.
    + unfold value. cbn. ring.
    + apply samples_on_curve.
    + exact Htimes.
  - intros pre t v post. apply last_sample.
  - intros ts Hin Hts. cbn [animate scheduled mounted].
    apply (runs_to_target score rest _ f0).
    + reflexivity.
    + exact Hf0.
    + apply first_step_scheduled.
    + exists ts. split; assumption.
Qed.

Lemma animation_tracks_frame_clock_witness :
  (~ 16 == 0 /\ ascending [16; 566; 1116] /\ 0 <= 82) /\
  tracks 82 16 [16; 566; 1116] (samples 82 mounted [16; 566; 1116]) /\
  ascending (animated mounted :: map snd (samples 82 mounted [16; 566; 1116])) /\
  animated (animate 82 mounted [16; 566; 1116]) == 82.
Proof.
  assert (Hf : ~ 16 == 0) by (intros H; vm_compute in H; discriminate H).
  assert (Ha : ascending [16; 566; 1116]).
  { cbn. repeat split; discriminate. }
  assert (Hs : 0 <= 82) by discriminate.
  destruct (animation_tracks_frame_clock 82 16 [566; 1116] Hf Ha)
    as (_ & _ & Htr & _ & Hval & _ & Hend).
  split; [repeat split; assumption|].
  split; [exact Htr|]. split; [exact (Hval Hs)|].
  apply (Hend 1116).
  - right; left; reflexivity.
  - discriminate.
Defined.

(** The value of the curve at normalized time 1/11 for the target 82 is
    27142/1331, which is no integer over a power of two: no floating-point
    number is that value, so the value the code stores for such a sample
    is near the curve and not on it. *)
Lemma curve_value_is_no_double : forall (m : Z) (k : nat),
  value 82 (1 # 11) == 27142 # 1331 /\
  ~ (value 82 (1 # 11)) * inject_Z (2 ^ Z.of_nat k) == inject_Z m.
Proof.
  intros m k.
  assert (E : value 82 (1 # 11) == 27142 # 1331) by reflexivity.
  split; [exact E|]. rewrite E. intros H.
  unfold Qeq, Qmult, inject_Z in H. cbn [Qnum Qden] in H.
  rewrite !Pos.mul_1_r, Z.mul_1_r in H.
  assert (Hd : (11 | 27142 * 2 ^ Z.of_nat k)%Z).
  { exists (m * 121)%Z. rewrite H. change (Z.pos 1331) with (121 * 11)%Z. ring. }
  assert (Hr : Z.gcd 11 (2 ^ Z.of_nat k) = 1%Z).
  { apply Z.coprime_pow_r; [lia | reflexivity]. }
  rewrite Z.mul_comm in Hd.
  destruct (Z.gauss _ _ _ Hd Hr) as [q Hq]. lia.
Qed.
